(** * telliot-feeds: the reporting decision core

    A shallow embedding of
      - [ConditionalReporter] (reporters/customized/conditional_reporter.py),
      - [FlashbotsReporter]   (telliot_feed_examples/reporters/flashbot.py),
      - [filter_batch_result] (reporters/tip_listener/utils_tip_listener.py),
    followed by the properties of the specification that concern them.

    Python integers are [Z]; Python floats are IEEE-754 binary64 values,
    taken from the standard library's executable specification
    ([SpecFloat], with [prec = 53] and [emax = 1024]); a method of a
    reporter is a computation that threads the reporter object, appends to
    a trace of observable events (log lines, relay calls, sleeps) and either
    returns a value or raises a Python exception. *)

From Stdlib Require Import ZArith List Bool String Lia Permutation.
From Stdlib Require Import Floats.SpecFloat.
Import ListNotations.
Open Scope Z_scope.

(** ** Python values, exceptions and effects *)

Module Py.

(** The exceptions that the modelled code can raise or catch. *)
Inductive exn : Type :=
| AttributeError
| TypeError
| ZeroDivisionError
| OverflowError
| KeyError
| ValueError
| TransactionNotFound (msg : string)
| Exception (msg : string).

Inductive result (A : Type) : Type :=
| Ok (a : A)
| Raise (e : exn).
Arguments Ok {A} a.
Arguments Raise {A} e.

Definition str (e : exn) : string :=
  match e with
  | AttributeError => "AttributeError"
  | TypeError => "TypeError"
  | ZeroDivisionError => "ZeroDivisionError"
  | OverflowError => "OverflowError"
  | KeyError => "KeyError"
  | ValueError => "ValueError"
  | TransactionNotFound msg => msg
  | Exception msg => msg
  end.

(** [repr(e)]: the class of the exception and the message it carries. *)
Definition repr (e : exn) : string :=
  match e with
  | AttributeError => "AttributeError()"
  | TypeError => "TypeError()"
  | ZeroDivisionError => "ZeroDivisionError()"
  | OverflowError => "OverflowError()"
  | KeyError => "KeyError()"
  | ValueError => "ValueError()"
  | TransactionNotFound msg => String.append "TransactionNotFound('" (String.append msg "')")
  | Exception msg => String.append "Exception('" (String.append msg "')")
  end.

(** *** float: binary64 *)

Definition prec : Z := 53.
Definition emax : Z := 1024.
Definition float : Type := spec_float.

(** [float(n)] for an integer [n]: correctly rounded (to nearest, ties to
    even); an integer beyond the range of a double raises OverflowError. *)
Definition float_of_int (n : Z) : result float :=
  match binary_normalize prec emax n 0 false with
  | S754_infinity _ => Raise OverflowError
  | f => Ok f
  end.

(** The double nearest to the integer [n]: the value of a literal such as
    [35.0] or [2000.0]. *)
Definition float_lit (n : Z) : float := binary_normalize prec emax n 0 false.

(** The literals of the source: [1e18], [1e9], and the integer [100] that
    [float * 100] converts. All three are exact doubles. *)
Definition lit_1e18 : float := Eval cbv in float_lit (10 ^ 18).
Definition lit_1e9 : float := Eval cbv in float_lit (10 ^ 9).
Definition lit_100 : float := Eval cbv in float_lit 100.

(** The largest finite double, [sys.float_info.max]. *)
Definition float_max : float := S754_finite false (2 ^ 53 - 1) 971.

Definition is_zero (x : float) : bool :=
  match x with S754_zero _ => true | _ => false end.

Definition is_nan (x : float) : bool :=
  match x with S754_nan => true | _ => false end.

(** [x / y] on floats raises ZeroDivisionError when [y] is [0.0] or [-0.0]. *)
Definition float_truediv (x y : float) : result float :=
  if is_zero y then Raise ZeroDivisionError else Ok (SFdiv prec emax x y).

Definition float_mul (x y : float) : float := SFmul prec emax x y.
Definition float_sub (x y : float) : float := SFsub prec emax x y.
Definition float_lt (x y : float) : bool := SFltb x y.
Definition float_ge (x y : float) : bool := SFleb y x.

(** [n / y] for an integer [n] and a float [y]: [n] is converted first. *)
Definition int_truediv_float (n : Z) (y : float) : result float :=
  match float_of_int n with
  | Ok x => float_truediv x y
  | Raise e => Raise e
  end.

(** [x * y] where [y] may be [None]: [float * NoneType] is a TypeError. *)
Definition float_mul_optional (x : float) (y : option float) : result float :=
  match y with
  | Some y => Ok (float_mul x y)
  | None => Raise TypeError
  end.

(** [a * b] on integers where [b] may be [None]. *)
Definition int_mul_optional (a : Z) (b : option Z) : result Z :=
  match b with
  | Some b => Ok (a * b)
  | None => Raise TypeError
  end.

(** [a + b] on integers where [a] may be [None]. *)
Definition optional_add_int (a : option Z) (b : Z) : result Z :=
  match a with
  | Some a => Ok (a + b)
  | None => Raise TypeError
  end.

(** [s + t] on strings where [t] may be [None]. *)
Definition str_add_optional (s : string) (t : option string) : result string :=
  match t with
  | Some t => Ok (String.append s t)
  | None => Raise TypeError
  end.

(** Truthiness of an [Optional[int]]: [None] and [0] are falsy. *)
Definition truthy (x : option Z) : bool :=
  match x with
  | Some n => negb (n =? 0)
  | None => false
  end.

Definition bytes : Type := string.

(** *** Observable events *)

Inductive level : Type := DEBUG | INFO | WARNING | ERROR.

(** A transaction as [buildTransaction] receives it; fee amounts in wei. *)
Inductive fees : Type :=
| LegacyFees (gasPrice : Z)
| Eip1559Fees (maxFeePerGas maxPriorityFeePerGas : Z).

Record transaction : Type := {
  tx_queryId : bytes;
  tx_value : bytes;
  tx_oracle_nonce : option Z;
  tx_queryData : bytes;
  tx_nonce : Z;
  tx_gas : Z;
  tx_fees : fees;
  tx_chainId : Z
}.

Inductive event : Type :=
| Log (lvl : level) (msg : string)
| Stdout (msg : string)
| Sleep (seconds : Z)
| SendBundle (bundle : list transaction) (target_block_number : Z)
| Wait (target_block_number : Z)
| Receipts (target_block_number : Z).

Definition is_sleep (ev : event) : bool :=
  match ev with Sleep _ => true | _ => false end.

Definition is_relay (ev : event) : bool :=
  match ev with
  | SendBundle _ _ | Wait _ | Receipts _ => true
  | _ => false
  end.

(** The sleeps of a trace, and its calls to the relay, in order. *)
Definition sleeps (tr : list event) : list event := filter is_sleep tr.
Definition relay_calls (tr : list event) : list event := filter is_relay tr.

(** *** Methods: state, trace and exceptions *)

Definition M (S A : Type) : Type := S -> S * list event * result A.

Definition ret {S A} (a : A) : M S A := fun s => (s, [], Ok a).

Definition raise {S A} (e : exn) : M S A := fun s => (s, [], Raise e).

Definition bind {S A B} (m : M S A) (k : A -> M S B) : M S B :=
  fun s =>
    match m s with
    | (s1, t1, Ok a) =>
        match k a s1 with
        | (s2, t2, r) => (s2, t1 ++ t2, r)
        end
    | (s1, t1, Raise e) => (s1, t1, Raise e)
    end.

Definition get {S} : M S S := fun s => (s, [], Ok s).
Definition modify {S} (f : S -> S) : M S unit := fun s => (f s, [], Ok tt).
Definition emit {S} (e : event) : M S unit := fun s => (s, [e], Ok tt).
Definition lift {S A} (r : result A) : M S A := fun s => (s, [], r).

(** A call of a method of a base class that is not among the modelled
    sources: [f] says what the call does to the object and whether it
    returns or raises; what it logs is not recorded. *)
Definition inherited {S A} (f : S -> S * result A) : M S A :=
  fun s => (fst (f s), [], snd (f s)).

Definition state_of {S A} (x : S * list event * result A) : S := fst (fst x).
Definition trace_of {S A} (x : S * list event * result A) : list event := snd (fst x).
Definition outcome_of {S A} (x : S * list event * result A) : result A := snd x.

Declare Scope py_scope.
Delimit Scope py_scope with py.
Notation "x <- m ;; k" := (bind m (fun x => k))
  (at level 100, m at next level, right associativity) : py_scope.
Notation "m ;; k" := (bind m (fun _ => k))
  (at level 100, right associativity) : py_scope.

(** *** ResponseStatus (telliot_core.utils.response)

    A mutable record; [ResponseStatus()] is the success status: it is what
    [ensure_profitable] returns when it accepts and what [report_once]
    tests with [status.ok and not status.error]. *)
Record ResponseStatus : Type := {
  ok : bool;
  error : option string;
  e : option exn
}.

Definition ResponseStatus_new : ResponseStatus :=
  {| ok := true; error := None; e := None |}.

Definition set_ok (b : bool) (s : ResponseStatus) : ResponseStatus :=
  {| ok := b; error := error s; e := e s |}.
Definition set_error (m : string) (s : ResponseStatus) : ResponseStatus :=
  {| ok := ok s; error := Some m; e := e s |}.
Definition set_e (x : option exn) (s : ResponseStatus) : ResponseStatus :=
  {| ok := ok s; error := error s; e := x |}.

(** [error_status(note, e, log)] of telliot_core.utils.response, a helper
    of the library and not one of the modelled sources. The model follows
    what the helper does when it is called: the message is [note], followed
    by [": "] and [repr(e)] when an exception is passed; the message goes to
    [log]; the status returned is [ResponseStatus(ok=False, error=message)],
    whose [e] stays [None]. *)
Definition error_status {S} (note : string) (x : option exn) (lvl : level)
  : M S ResponseStatus :=
  let msg := match x with
             | Some ex => String.append note (String.append ": " (repr ex))
             | None => note
             end in
  bind (emit (Log lvl msg))
       (fun _ => ret {| ok := false; error := Some msg; e := None |}).

End Py.

(** ** reporters/customized/conditional_reporter.py *)

Module Conditional.
Import Py.
Local Open Scope py_scope.

Record GetDataBefore : Type := {
  retrieved : bool;
  value : bytes;
  timestampRetrieved : Z
}.

Record DataFeed : Type := {
  query_id : bytes;
  descriptor : string
}.

(** The fields of the reporter that the modelled methods read. *)
Record ConditionalReporter : Type := {
  datafeed : option DataFeed;
  stale_timeout : Z;
  wait_period : Z
}.

(** What the collaborators answer during one cycle of [report]:
    [self.is_online()], [self.has_native_token()], the oracle's answer to
    [read("getDataBefore", query_id, current_time())], the clock, and the
    [self.report_once()] that the class inherits from [Tellor360Reporter]:
    that method is not among these sources, so it is free to leave any
    reporter behind and to return or raise. *)
Record World : Type := {
  is_online : bool;
  has_native_token : bool;
  oracle_getDataBefore : option (bool * bytes * Z) * ResponseStatus;
  current_time : Z;
  report_once : ConditionalReporter
                -> ConditionalReporter * result (option bytes * ResponseStatus)
}.

Definition Method (A : Type) : Type := M ConditionalReporter A.

(** [GetDataBefore] built from the unpacked [data]: unpacking [None] is a
    TypeError. *)
Definition GetDataBefore_of (data : option (bool * bytes * Z)) : result GetDataBefore :=
  match data with
  | Some (r, v, t) => Ok {| retrieved := r; value := v; timestampRetrieved := t |}
  | None => Raise TypeError
  end.

Definition get_tellor_latest_data (w : World) : Method (option GetDataBefore) :=
  self <- get ;;
  match datafeed self with
  | None =>
      emit (Log DEBUG "no datafeed set") ;;
      ret None
  | Some _ =>
      let '(data, status) := oracle_getDataBefore w in
      if negb (ok status) then
        emit (Log WARNING "error getting tellor data") ;;
        ret None
      else
        d <- lift (GetDataBefore_of data) ;;
        ret (Some d)
  end.

(** [tellor_data.value]: attribute access on [None] is an AttributeError. *)
Definition value_of (tellor_data : option GetDataBefore) : result bytes :=
  match tellor_data with
  | Some d => Ok (value d)
  | None => Raise AttributeError
  end.

(** [conditions_met], lines 90-116. Line 113 of the source ([eilf
    tellor_value]) is not a statement of the language and has no
    counterpart here; every other line is followed in order, including
    the read of [tellor_data.value] on line 103, which comes before the
    test [tellor_data is None] of line 104. *)
Definition conditions_met (w : World) : Method bool :=
  emit (Log INFO "checking conditions and reporting if necessary") ;;
  self <- get ;;
  match datafeed self with
  | None =>
      emit (Log DEBUG "no datafeed was set") ;;
      ret false
  | Some _ =>
      tellor_data <- get_tellor_latest_data w ;;
      let time := current_time w in
      let time_passed_since_tellor_report :=
        match tellor_data with
        | Some d => time - timestampRetrieved d
        | None => time
        end in
      tellor_value <- lift (value_of tellor_data) ;;
      match tellor_data with
      | None =>
          emit (Log DEBUG "tellor data returned None") ;;
          ret true
      | Some d =>
          if negb (retrieved d) then
            emit (Log DEBUG "No oracle submissions in tellor for query") ;;
            ret true
          else if time_passed_since_tellor_report >? stale_timeout self then
            emit (Log DEBUG "tellor data is stale") ;;
            ret true
          else
            emit (Log INFO "tellor data is recent enough") ;;
            ret false
      end
  end.

(** One iteration of the [while] loop of [report], lines 127-139. *)
Definition report_cycle (w : World) : Method unit :=
  (if is_online w then
     if has_native_token w then
       met <- conditions_met w ;;
       if met then
         _ <- inherited (report_once w) ;;
         ret tt
       else
         emit (Log INFO "feeds are recent enough, no need to report")
     else ret tt
   else
     emit (Log WARNING "Unable to connect to the internet!")) ;;
  self <- get ;;
  emit (Log INFO "Sleeping") ;;
  emit (Sleep (wait_period self)).

Definition continue (report_count : option Z) : bool :=
  match report_count with
  | None => true
  | Some n => n >? 0
  end.

Definition decrement (report_count : option Z) : option Z :=
  match report_count with
  | None => None
  | Some n => Some (n - 1)
  end.

(** [report]: the loop runs one cycle per element of [ws], the answers of
    the collaborators cycle by cycle, for as long as the loop condition
    holds; it stops early when [report_count] reaches zero. *)
Fixpoint report (ws : list World) (report_count : option Z) : Method unit :=
  match ws with
  | [] => ret tt
  | w :: ws' =>
      if continue report_count then
        report_cycle w ;;
        report ws' (decrement report_count)
      else ret tt
  end.

End Conditional.

(** ** telliot_feed_examples/reporters/flashbot.py *)

Module Flashbot.
Import Py.
Local Open Scope py_scope.

(** [expected_profit]: a float, or the string ["YOLO"]. *)
Inductive threshold : Type :=
| Percent (p : float)
| YOLO.

(** The two fields of the Etherscan gas quote that the reporter reads. *)
Record EtherscanGasPrice : Type := {
  suggestBaseFee : Z;
  SafeGasPrice : Z
}.

Record Receipt : Type := {
  blockNumber : Z;
  transactionHash : bytes
}.

Record FlashbotsReporter : Type := {
  query_id : bytes;
  query_data : bytes;
  chain_id : Z;
  last_submission_timestamp : Z;
  expected_profit : threshold;
  transaction_type : Z;
  gas_limit : Z;
  max_fee : option Z;
  priority_fee : option Z;
  legacy_gas_price : option Z;
  gas_price_speed : string
}.

Definition with_max_fee (v : option Z) (r : FlashbotsReporter) : FlashbotsReporter :=
  {| query_id := query_id r; query_data := query_data r; chain_id := chain_id r;
     last_submission_timestamp := last_submission_timestamp r;
     expected_profit := expected_profit r; transaction_type := transaction_type r;
     gas_limit := gas_limit r; max_fee := v; priority_fee := priority_fee r;
     legacy_gas_price := legacy_gas_price r; gas_price_speed := gas_price_speed r |}.

Definition with_priority_fee (v : option Z) (r : FlashbotsReporter) : FlashbotsReporter :=
  {| query_id := query_id r; query_data := query_data r; chain_id := chain_id r;
     last_submission_timestamp := last_submission_timestamp r;
     expected_profit := expected_profit r; transaction_type := transaction_type r;
     gas_limit := gas_limit r; max_fee := max_fee r; priority_fee := v;
     legacy_gas_price := legacy_gas_price r; gas_price_speed := gas_price_speed r |}.

Definition with_legacy_gas_price (v : option Z) (r : FlashbotsReporter) : FlashbotsReporter :=
  {| query_id := query_id r; query_data := query_data r; chain_id := chain_id r;
     last_submission_timestamp := last_submission_timestamp r;
     expected_profit := expected_profit r; transaction_type := transaction_type r;
     gas_limit := gas_limit r; max_fee := max_fee r; priority_fee := priority_fee r;
     legacy_gas_price := v; gas_price_speed := gas_price_speed r |}.

Definition with_last_submission_timestamp (v : Z) (r : FlashbotsReporter) : FlashbotsReporter :=
  {| query_id := query_id r; query_data := query_data r; chain_id := chain_id r;
     last_submission_timestamp := v;
     expected_profit := expected_profit r; transaction_type := transaction_type r;
     gas_limit := gas_limit r; max_fee := max_fee r; priority_fee := priority_fee r;
     legacy_gas_price := legacy_gas_price r; gas_price_speed := gas_price_speed r |}.

(** What the collaborators answer during one call of [report_once]:
    the reporter lock, the oracle reads, the [latest[0]] of the two price
    sources after the gathered fetch, element 0 of [get_fee_info()],
    [ethgasstation(style)], the datafeed's [latest[0]] and its encoder, the
    account's transaction count, the block number, and what [receipts()[0]]
    gives for the bundle sent for a target block.

    [reporter_lock] stands for the method [check_reporter_lock()] that the
    class inherits from [IntervalReporter], which is not among these
    sources. For the reporter it is called on, it gives the
    [last_submission_timestamp] that the call leaves on the reporter (the
    field that lines 65 and 325 reset for it) and the status it returns, or
    the exception it raises. *)
Record World : Type := {
  reporter_lock : FlashbotsReporter -> Z * result ResponseStatus;
  getCurrentReward : option (Z * Z) * ResponseStatus;
  eth_usd_latest : option float;
  trb_usd_latest : option float;
  fee_info : option EtherscanGasPrice;
  ethgasstation : option Z;
  datafeed_latest : option Z;
  value_type_encode : Z -> result bytes;
  getTimestampCountById : option Z * ResponseStatus;
  get_transaction_count : Z;
  block_number : Z;
  receipts : Z -> result Receipt
}.

Definition Method (A : Type) : Type := M FlashbotsReporter A.

(** The local variables of [ensure_profitable] at line 180. *)
Record Estimate : Type := {
  costs : Z;
  revenue : Z;
  rev_usd : float;
  costs_usd : float;
  profit_usd : float;
  percent_profit : float
}.

(** [fee_info[0].suggestBaseFee]: attribute access on [None] raises. *)
Definition suggestBaseFee_of (fi : option EtherscanGasPrice) : result Z :=
  match fi with
  | Some q => Ok (suggestBaseFee q)
  | None => Raise AttributeError
  end.

Definition SafeGasPrice_of (fi : option EtherscanGasPrice) : result Z :=
  match fi with
  | Some q => Ok (SafeGasPrice q)
  | None => Raise AttributeError
  end.

(** The f-string of the two [logger.info] calls of lines 142 and 162
    evaluates [tips / 1e18] and [tb_reward / 1e18] before it logs. *)
Definition log_rewards (tips tb_reward : Z) : Method unit :=
  _ <- lift (int_truediv_float tips lit_1e18) ;;
  _ <- lift (int_truediv_float tb_reward lit_1e18) ;;
  emit (Log INFO "tips, time-based reward, gas limit, fees").

(** Lines 123-170: the fee of the transaction type, resolved on [self],
    and the cost in gwei. *)
Definition resolve_costs (w : World) (tips tb_reward : Z) : Method Z :=
  self <- get ;;
  if transaction_type self =? 2 then
    let fi := fee_info w in
    base_fee <- lift (suggestBaseFee_of fi) ;;
    (match priority_fee self with
     | None =>
         priority_fee <- lift (SafeGasPrice_of fi) ;;
         modify (with_priority_fee (Some priority_fee))
     | Some _ => ret tt
     end) ;;
    self <- get ;;
    (match max_fee self with
     | None =>
         mf <- lift (optional_add_int (priority_fee self) base_fee) ;;
         modify (with_max_fee (Some mf))
     | Some _ => ret tt
     end) ;;
    log_rewards tips tb_reward ;;
    self <- get ;;
    lift (int_mul_optional (gas_limit self) (max_fee self))
  else
    (if negb (truthy (legacy_gas_price self)) then
       modify (with_legacy_gas_price (ethgasstation w))
     else ret tt) ;;
    log_rewards tips tb_reward ;;
    self <- get ;;
    lift (int_mul_optional (gas_limit self) (legacy_gas_price self)).

(** Lines 96-180 of [ensure_profitable]: either the early return of the
    failed read ([inl]), or the estimate ([inr]). *)
Definition estimate (w : World) : Method (ResponseStatus + Estimate) :=
  let status := ResponseStatus_new in
  let '(rewards, read_status) := getCurrentReward w in
  match ok read_status, rewards with
  | true, Some (tips, tb_reward) =>
      let price_eth_usd := eth_usd_latest w in
      let price_trb_usd := trb_usd_latest w in
      costs <- resolve_costs w tips tb_reward ;;
      let revenue := tb_reward + tips in
      rev <- lift (int_truediv_float revenue lit_1e18) ;;
      rev_usd <- lift (float_mul_optional rev price_trb_usd) ;;
      cst <- lift (int_truediv_float costs lit_1e9) ;;
      costs_usd <- lift (float_mul_optional cst price_eth_usd) ;;
      let profit_usd := float_sub rev_usd costs_usd in
      emit (Log INFO "Estimated profit") ;;
      quotient <- lift (float_truediv profit_usd costs_usd) ;;
      let percent_profit := float_mul quotient lit_100 in
      emit (Log INFO "Estimated percent profit") ;;
      ret (inr {| costs := costs; revenue := revenue; rev_usd := rev_usd;
                  costs_usd := costs_usd; profit_usd := profit_usd;
                  percent_profit := percent_profit |})
  | _, _ =>
      let status := set_ok false status in
      msg <- lift (str_add_optional "Unable to retrieve queryID's current rewards:"
                                    (error read_status)) ;;
      let status := set_error msg status in
      emit (Log ERROR msg) ;;
      let status := set_e (e read_status) status in
      ret (inl status)
  end.

(** The test of line 182. *)
Definition below_threshold (expected : threshold) (percent : float) : bool :=
  match expected with
  | YOLO => false
  | Percent p => float_lt percent p
  end.

Definition ensure_profitable (w : World) : Method ResponseStatus :=
  x <- estimate w ;;
  match x with
  | inl status => ret status
  | inr est =>
      let status := ResponseStatus_new in
      self <- get ;;
      if below_threshold (expected_profit self) (percent_profit est) then
        let status := set_ok false status in
        let status := set_error "Estimated profitability below threshold." status in
        emit (Log INFO "Estimated profitability below threshold.") ;;
        ret status
      else ret status
  end.

(** The call [self.check_reporter_lock()] of line 207. *)
Definition check_reporter_lock (w : World) : Method ResponseStatus :=
  self <- get ;;
  modify (with_last_submission_timestamp (fst (reporter_lock w self))) ;;
  lift (snd (reporter_lock w self)).

(** The largest amount of wei that [Web3.toWei] returns. *)
Definition MAX_WEI : Z := 2 ^ 256 - 1.

(** [Web3.toWei(x, "gwei")] for an integer amount: the amount times 10^9,
    and a ValueError when that is below 0 or above [MAX_WEI]; [None] is a
    TypeError. *)
Definition toWei_gwei (x : option Z) : result Z :=
  match x with
  | Some n =>
      let result_value := n * 10 ^ 9 in
      if (result_value <? 0) || (result_value >? MAX_WEI) then Raise ValueError
      else Ok result_value
  | None => Raise TypeError
  end.

(** Lines 256-284: the fee fields of the transaction type. *)
Definition fee_fields : Method fees :=
  self <- get ;;
  if transaction_type self =? 2 then
    emit (Log INFO "maxFeePerGas") ;;
    emit (Log INFO "maxPriorityFeePerGas") ;;
    mf <- lift (toWei_gwei (max_fee self)) ;;
    pf <- lift (toWei_gwei (priority_fee self)) ;;
    ret (Eip1559Fees mf pf)
  else
    gp <- lift (toWei_gwei (legacy_gas_price self)) ;;
    ret (LegacyFees gp).

(** Lines 298-304: one [send_bundle] per target block, in order; the
    pending bundle that a call returns is identified by its target block. *)
Fixpoint send_bundles (bundle : list transaction) (targets : list Z) : Method (list Z) :=
  match targets with
  | [] => ret []
  | target_block :: rest =>
      emit (SendBundle bundle target_block) ;;
      results <- send_bundles bundle rest ;;
      ret (target_block :: results)
  end.

(** [results[-1]]. *)
Definition last_of (results : list Z) : result Z :=
  match rev results with
  | x :: _ => Ok x
  | [] => Raise (Exception "IndexError")
  end.

(** Lines 290-332: the bundle is sent, awaited and looked up. *)
Definition submit_bundle (w : World) (status : ResponseStatus)
  (submit_val_tx_signed : transaction) : Method (option Receipt * ResponseStatus) :=
  let bundle := [submit_val_tx_signed] in
  let block := block_number w in
  results <- send_bundles bundle (map (fun k => block + k) [1; 2; 3; 4; 5]) ;;
  result <- lift (last_of results) ;;
  emit (Log INFO "Bundle sent to miners in block") ;;
  emit (Wait result) ;;
  emit (Receipts result) ;;
  match receipts w result with
  | Ok tx_receipt =>
      emit (Stdout "Bundle was executed in block") ;;
      let status := ResponseStatus_new in
      (if ok status && negb (match error status with Some _ => true | None => false end) then
         modify (with_last_submission_timestamp 0) ;;
         emit (Log INFO "View reported data")
       else
         emit (Log ERROR "status")) ;;
      ret (Some tx_receipt, status)
  | Raise (TransactionNotFound m) =>
      let msg := String.append "Bundle was not executed: " (str (TransactionNotFound m)) in
      let status := set_error msg status in
      emit (Log ERROR msg) ;;
      let status := set_e (Some (TransactionNotFound m)) status in
      ret (None, status)
  | Raise other => raise other
  end.

Definition report_once (w : World) : Method (option Receipt * ResponseStatus) :=
  status <- check_reporter_lock w ;;
  if negb (ok status) then ret (None, status) else
  status <- ensure_profitable w ;;
  if negb (ok status) then ret (None, status) else
  let status := ResponseStatus_new in
  match datafeed_latest w with
  | None =>
      failed <- error_status "Unable to retrieve updated datafeed value." None INFO ;;
      ret (None, failed)
  | Some latest_data =>
      self <- get ;;
      match value_type_encode w latest_data with
      | Raise ex =>
          failed <- error_status "Error encoding response value" (Some ex) ERROR ;;
          ret (None, failed)
      | Ok value =>
          let '(timestamp_count, read_status) := getTimestampCountById w in
          if negb (ok read_status) then
            msg <- lift (str_add_optional "Unable to retrieve timestampCount: "
                                          (error read_status)) ;;
            let status := set_error msg status in
            emit (Log ERROR msg) ;;
            let status := set_e (e read_status) status in
            ret (None, status)
          else
            let acc_nonce := get_transaction_count w in
            fs <- fee_fields ;;
            let built_submit_val_tx :=
              {| tx_queryId := query_id self; tx_value := value;
                 tx_oracle_nonce := timestamp_count; tx_queryData := query_data self;
                 tx_nonce := acc_nonce; tx_gas := gas_limit self;
                 tx_fees := fs; tx_chainId := chain_id self |} in
            submit_bundle w status built_submit_val_tx
      end
  end.

(** One iteration of [while True] in [report], lines 338-339. *)
Definition report_cycle (w : World) : Method unit :=
  _ <- report_once w ;;
  emit (Sleep 7).

(** [report]: the loop never ends by itself; the model runs one cycle per
    element of [ws], the answers of the collaborators cycle by cycle. *)
Fixpoint report (ws : list World) : Method unit :=
  match ws with
  | [] => ret tt
  | w :: ws' =>
      report_cycle w ;;
      report ws'
  end.

(** ** Auxiliary notions for the statements below *)

(** The fields that no method of the model assigns, except on success
    [last_submission_timestamp]. *)
Definition same_settings (r r' : FlashbotsReporter) : Prop :=
  expected_profit r' = expected_profit r /\
  transaction_type r' = transaction_type r /\
  gas_limit r' = gas_limit r.

(** The rejected status of line 183. *)
Definition below_status : ResponseStatus :=
  {| ok := false;
     error := Some "Estimated profitability below threshold."%string;
     e := None |}.

(** The calls to the relay of one submission with current block [b]. *)
Definition five_blocks (tx : transaction) (b : Z) : list event :=
  [SendBundle [tx] (b + 1); SendBundle [tx] (b + 2); SendBundle [tx] (b + 3);
   SendBundle [tx] (b + 4); SendBundle [tx] (b + 5); Wait (b + 5); Receipts (b + 5)].

End Flashbot.

(** ** reporters/tip_listener/utils_tip_listener.py *)

Module TipListener.
Import Py.

Section FilterBatchResult.

(** Keys of the input are pairs [(a, q)]; values are of any type. *)
Variables A Q V : Type.
Variable A_eq_dec : forall x y : A, {x = y} + {x <> y}.
Variable Q_eq_dec : forall x y : Q, {x = y} + {x <> y}.

Definition Key : Type := (A * Q)%type.

Definition Key_eq_dec (k1 k2 : Key) : {k1 = k2} + {k1 <> k2}.
Proof. decide equality. Defined.

(** A [dict] in insertion order; its keys are pairwise distinct. *)
Definition dict : Type := list (Key * V).

(** A [defaultdict(list)] keyed by the second components, in insertion
    order. *)
Definition defaultdict (X : Type) : Type := list (Q * list X).

(** [d[q].append(x)]: a missing key is first inserted, at the end, with
    an empty list. *)
Fixpoint append_at {X : Type} (d : defaultdict X) (q : Q) (x : X) : defaultdict X :=
  match d with
  | [] => [(q, [x])]
  | (q', l) :: d' =>
      if Q_eq_dec q q' then (q', l ++ [x]) :: d'
      else (q', l) :: append_at d' q x
  end.

(** [data[k]]: a missing key is a KeyError. *)
Fixpoint getitem (data : dict) (k : Key) : result V :=
  match data with
  | [] => Raise KeyError
  | (k', v) :: rest => if Key_eq_dec k k' then Ok v else getitem rest k
  end.

(** The first loop: [for k in data: mapping[k[1]].append(k)]. *)
Definition group_keys (data : dict) : defaultdict Key :=
  fold_left (fun mapping k => append_at mapping (snd k) k) (map fst data) [].

(** The inner loop: [for val in mapping[query_id]]. *)
Fixpoint append_values (data : dict) (results : defaultdict V) (query_id : Q)
  (vals : list Key) : result (defaultdict V) :=
  match vals with
  | [] => Ok results
  | val :: rest =>
      match getitem data val with
      | Ok value => append_values data (append_at results query_id value) query_id rest
      | Raise ex => Raise ex
      end
  end.

(** The outer loop: [for query_id in mapping]. *)
Fixpoint collect (data : dict) (results : defaultdict V) (mapping : defaultdict Key)
  : result (defaultdict V) :=
  match mapping with
  | [] => Ok results
  | (query_id, vals) :: rest =>
      match append_values data results query_id vals with
      | Ok results' => collect data results' rest
      | Raise ex => Raise ex
      end
  end.

Definition filter_batch_result (data : dict) : result (defaultdict V) :=
  collect data [] (group_keys data).

Definition has_second (q : Q) (kv : Key * V) : bool :=
  if Q_eq_dec (snd (fst kv)) q then true else false.

(** The values of the entries of [data] whose key has second component
    [q], in the order of [data]. *)
Definition values_for (q : Q) (data : dict) : list V :=
  map snd (filter (has_second q) data).

(** Reading a [defaultdict] without inserting: the list at [q], or []. *)
Fixpoint lookup {X : Type} (d : defaultdict X) (q : Q) : list X :=
  match d with
  | [] => []
  | (q', l) :: d' => if Q_eq_dec q q' then l else lookup d' q
  end.

(** Grouping the entries themselves, the way [group_keys] groups the
    keys: the intermediate object of the correctness proof. *)
Definition group_entries (data : dict) (m : defaultdict (Key * V))
  : defaultdict (Key * V) :=
  fold_left (fun m kv => append_at m (snd (fst kv)) kv) data m.

Definition on_lists {X Y : Type} (f : X -> Y) (entry : Q * list X) : Q * list Y :=
  (fst entry, map f (snd entry)).

End FilterBatchResult.

Arguments append_at {Q} Q_eq_dec {X} d q x.
Arguments getitem {A Q V} A_eq_dec Q_eq_dec data k.
Arguments group_keys {A Q V} Q_eq_dec data.
Arguments filter_batch_result {A Q V} A_eq_dec Q_eq_dec data.
Arguments values_for {A Q V} Q_eq_dec q data.
Arguments lookup {Q} Q_eq_dec {X} d q.
Arguments has_second {A Q V} Q_eq_dec q kv.
Arguments group_entries {A Q V} Q_eq_dec data m.
Arguments on_lists {Q X Y} f entry.

End TipListener.

(** ** Concrete reporters and worlds used by the examples below *)

Module Examples.
Import Py.
Local Open Scope string_scope.

Definition status_ok : ResponseStatus := ResponseStatus_new.

Definition status_failed (msg : string) : ResponseStatus :=
  {| ok := false; error := Some msg; e := Some (Exception msg) |}.

(** A backup reporter with a datafeed and a stale timeout of one hour. *)
Definition backup_reporter : Conditional.ConditionalReporter :=
  {| Conditional.datafeed :=
       Some {| Conditional.query_id := "eth-usd"; Conditional.descriptor := "eth-usd-spot" |};
     Conditional.stale_timeout := 3600;
     Conditional.wait_period := 7 |}.

(** Online, funded, and the read of [getDataBefore] fails. *)
Definition read_error_world : Conditional.World :=
  {| Conditional.is_online := true;
     Conditional.has_native_token := true;
     Conditional.oracle_getDataBefore := (None, status_failed "execution reverted");
     Conditional.current_time := 1700000000;
     Conditional.report_once := fun self => (self, Ok (None, status_ok)) |}.

(** Online, funded, and the oracle holds a record of age [age] seconds. *)
Definition record_world (is_retrieved : bool) (age : Z) : Conditional.World :=
  {| Conditional.is_online := true;
     Conditional.has_native_token := true;
     Conditional.oracle_getDataBefore :=
       (Some (is_retrieved, "value"%string, 1700000000 - age), status_ok);
     Conditional.current_time := 1700000000;
     Conditional.report_once := fun self => (self, Ok (None, status_ok)) |}.

(** The reporter of the specification's example: legacy transactions,
    gas limit 350000, 50 gwei, and a profit threshold. *)
Definition legacy_reporter (expected : Flashbot.threshold) : Flashbot.FlashbotsReporter :=
  {| Flashbot.query_id := "id"; Flashbot.query_data := "data";
     Flashbot.chain_id := 1; Flashbot.last_submission_timestamp := 1699990000;
     Flashbot.expected_profit := expected; Flashbot.transaction_type := 0;
     Flashbot.gas_limit := 350000; Flashbot.max_fee := None;
     Flashbot.priority_fee := Some 5; Flashbot.legacy_gas_price := Some 50;
     Flashbot.gas_price_speed := "fast" |}.

(** An EIP-1559 reporter with no fee chosen by the user. *)
Definition eip1559_reporter : Flashbot.FlashbotsReporter :=
  {| Flashbot.query_id := "id"; Flashbot.query_data := "data";
     Flashbot.chain_id := 1; Flashbot.last_submission_timestamp := 0;
     Flashbot.expected_profit := Flashbot.YOLO; Flashbot.transaction_type := 2;
     Flashbot.gas_limit := 350000; Flashbot.max_fee := None;
     Flashbot.priority_fee := None; Flashbot.legacy_gas_price := None;
     Flashbot.gas_price_speed := "fast" |}.

(** The world of the specification's example: no tips, a time-based
    reward of 1 TRB, TRB at [price_trb] and ETH at [price_eth] dollars; the
    submission that follows finds its receipt. *)
Definition market (price_eth price_trb : option float) : Flashbot.World :=
  {| Flashbot.reporter_lock :=
       fun self => (Flashbot.last_submission_timestamp self, Ok status_ok);
     Flashbot.getCurrentReward := (Some (0, 10 ^ 18), status_ok);
     Flashbot.eth_usd_latest := price_eth;
     Flashbot.trb_usd_latest := price_trb;
     Flashbot.fee_info := Some {| Flashbot.suggestBaseFee := 30; Flashbot.SafeGasPrice := 2 |};
     Flashbot.ethgasstation := Some 60;
     Flashbot.datafeed_latest := Some 2000;
     Flashbot.value_type_encode := fun _ => Ok "encoded"%string;
     Flashbot.getTimestampCountById := (Some 12, status_ok);
     Flashbot.get_transaction_count := 4;
     Flashbot.block_number := 100;
     Flashbot.receipts := fun b =>
       Ok {| Flashbot.blockNumber := b; Flashbot.transactionHash := "hash" |} |}.

(** The same world, where the relay did not include the bundle. *)
Definition dropped (w : Flashbot.World) : Flashbot.World :=
  {| Flashbot.reporter_lock := Flashbot.reporter_lock w;
     Flashbot.getCurrentReward := Flashbot.getCurrentReward w;
     Flashbot.eth_usd_latest := Flashbot.eth_usd_latest w;
     Flashbot.trb_usd_latest := Flashbot.trb_usd_latest w;
     Flashbot.fee_info := Flashbot.fee_info w;
     Flashbot.ethgasstation := Flashbot.ethgasstation w;
     Flashbot.datafeed_latest := Flashbot.datafeed_latest w;
     Flashbot.value_type_encode := Flashbot.value_type_encode w;
     Flashbot.getTimestampCountById := Flashbot.getTimestampCountById w;
     Flashbot.get_transaction_count := Flashbot.get_transaction_count w;
     Flashbot.block_number := Flashbot.block_number w;
     Flashbot.receipts := fun _ => Raise (TransactionNotFound "not found") |}.

(** A batch result with two query ids. *)
Definition batch : TipListener.dict Z Z Z :=
  [((1, 10), 100); ((2, 20), 200); ((3, 10), 300)].

End Examples.

(** ** [ConditionalReporter.fetch_median_value], lines 52-88 *)

Module MedianFetch.
Import Py.
Local Open Scope py_scope.

(** The fields of the reporter that the method reads or assigns. *)
Record Reporter : Type := {
  datafeed : option Conditional.DataFeed;
  autopaytip : Z;
  check_rewards : bool;
  use_random_feeds : bool
}.

Definition with_autopaytip (v : Z) (r : Reporter) : Reporter :=
  {| datafeed := datafeed r; autopaytip := v;
     check_rewards := check_rewards r; use_random_feeds := use_random_feeds r |}.

(** The inherited [self.rewards()], whose result is dropped: whatever it
    does to the reporter, logs or raises. *)
Record World : Type := {
  rewards : M Reporter unit
}.

(** A name that the module neither defines nor imports: looking it up is a
    NameError. The file imports [asyncio], [dataclass], [Any], [Optional],
    [DataFeed], [Tellor360Reporter], [get_logger] and [current_time], and
    nothing else. *)
Definition undefined_name {A : Type} (name : string) : M Reporter A :=
  raise (Exception (String.append "NameError: " name)).

(** Lines 65-88. The calls of lines 74 and 78 are to [suggest_random_feed]
    and [get_feed_and_tip]; lines 80-86 come after the second lookup and are
    never reached. *)
Definition fetch_median_value (w : World) : M Reporter (option Conditional.DataFeed) :=
  modify (with_autopaytip 0) ;;
  self <- get ;;
  (if check_rewards self then rewards w else ret tt) ;;
  self <- get ;;
  (if use_random_feeds self then undefined_name "suggest_random_feed" else ret tt) ;;
  self <- get ;;
  (match datafeed self with
   | None => undefined_name "get_feed_and_tip"
   | Some _ => ret tt
   end) ;;
  self <- get ;;
  ret (datafeed self).

End MedianFetch.

(** ** Further notions used by the statements at the end of the file *)

Module Notions.
Import Py.

(** The elements of a list in the order of their first occurrence. *)
Definition first_seen {Q : Type} (Q_eq_dec : forall x y : Q, {x = y} + {x <> y})
  (qs : list Q) : list Q :=
  fold_left (fun seen q => if in_dec Q_eq_dec q seen then seen else seen ++ [q]) qs [].

(** The second component of the key of an entry: [k[1]]. *)
Definition second {A Q V : Type} (kv : (A * Q) * V) : Q := snd (fst kv).

Definition is_log (ev : event) : bool :=
  match ev with Log _ _ => true | _ => false end.

(** The price per unit of gas that a transaction offers, in wei. *)
Definition gas_price_wei (f : fees) : Z :=
  match f with
  | LegacyFees gasPrice => gasPrice
  | Eip1559Fees maxFeePerGas _ => maxFeePerGas
  end.

(** The transaction that [report_once] builds on reporter [s] (lines
    246-288) for the encoded [value] and the fee fields [fs]. *)
Definition built (w : Flashbot.World) (s : Flashbot.FlashbotsReporter)
  (value : bytes) (fs : fees) : transaction :=
  {| tx_queryId := Flashbot.query_id s; tx_value := value;
     tx_oracle_nonce := fst (Flashbot.getTimestampCountById w);
     tx_queryData := Flashbot.query_data s;
     tx_nonce := Flashbot.get_transaction_count w;
     tx_gas := Flashbot.gas_limit s;
     tx_fees := fs; tx_chainId := Flashbot.chain_id s |}.

Definition only_logs (tr : list event) : Prop :=
  Forall (fun ev => is_log ev = true) tr.

(** An amount in gwei that [Web3.toWei] turns into wei. *)
Definition in_wei_range (x : option Z) : Prop :=
  exists n, x = Some n /\ 0 <= n * 10 ^ 9 <= Flashbot.MAX_WEI.

(** The fees of the transaction type of [s] are such amounts. *)
Definition fees_in_wei_range (s : Flashbot.FlashbotsReporter) : Prop :=
  if Flashbot.transaction_type s =? 2 then
    in_wei_range (Flashbot.max_fee s) /\ in_wei_range (Flashbot.priority_fee s)
  else in_wei_range (Flashbot.legacy_gas_price s).

(** The reporter as the call of [check_reporter_lock] leaves it. *)
Definition after_lock (w : Flashbot.World) (r : Flashbot.FlashbotsReporter)
  : Flashbot.FlashbotsReporter :=
  Flashbot.with_last_submission_timestamp (fst (Flashbot.reporter_lock w r)) r.

(** The settings of a Flashbots reporter: every field but the three fees
    and [last_submission_timestamp]. *)
Definition same_configuration (r r' : Flashbot.FlashbotsReporter) : Prop :=
  Flashbot.query_id r' = Flashbot.query_id r /\
  Flashbot.query_data r' = Flashbot.query_data r /\
  Flashbot.chain_id r' = Flashbot.chain_id r /\
  Flashbot.expected_profit r' = Flashbot.expected_profit r /\
  Flashbot.transaction_type r' = Flashbot.transaction_type r /\
  Flashbot.gas_limit r' = Flashbot.gas_limit r /\
  Flashbot.gas_price_speed r' = Flashbot.gas_price_speed r.

(** The number of cycles that a loop with [report_count] can run when the
    collaborators answer for [available] cycles. *)
Definition cycles_due (report_count : option Z) (available : nat) : nat :=
  match report_count with
  | None => available
  | Some n => Nat.min (Z.to_nat n) available
  end.

(** The world [w], [seconds] later: the same answers at a later time. *)
Definition later (seconds : Z) (w : Conditional.World) : Conditional.World :=
  {| Conditional.is_online := Conditional.is_online w;
     Conditional.has_native_token := Conditional.has_native_token w;
     Conditional.oracle_getDataBefore := Conditional.oracle_getDataBefore w;
     Conditional.current_time := Conditional.current_time w + seconds;
     Conditional.report_once := Conditional.report_once w |}.

(** The backup reporter of the examples with a stale timeout of one
    minute. *)
Definition impatient_reporter : Conditional.ConditionalReporter :=
  {| Conditional.datafeed := Conditional.datafeed Examples.backup_reporter;
     Conditional.stale_timeout := 60;
     Conditional.wait_period := Conditional.wait_period Examples.backup_reporter |}.

(** Two batch results that share no query id; the first has one query id
    only. *)
Definition batch_a : TipListener.dict Z Z Z := [((1, 10), 100); ((3, 10), 300)].
Definition batch_b : TipListener.dict Z Z Z := [((2, 20), 200); ((4, 30), 400)].

(** A backup reporter that holds a tip of an earlier cycle and checks no
    rewards, and a base class whose [rewards()] does nothing. *)
Definition tipped_reporter : MedianFetch.Reporter :=
  {| MedianFetch.datafeed :=
       Some {| Conditional.query_id := "eth-usd"%string;
               Conditional.descriptor := "eth-usd-spot"%string |};
     MedianFetch.autopaytip := 5;
     MedianFetch.check_rewards := false;
     MedianFetch.use_random_feeds := false |}.

Definition no_rewards_method : MedianFetch.World :=
  {| MedianFetch.rewards := ret tt |}.

(** The market of the specification's example, seen by a reporter whose
    rewards read, or whose timestamp count read, fails. *)
Definition market_without (rewards_fail count_fail : bool) : Flashbot.World :=
  let w := Examples.market (Some (float_lit 2000)) (Some (float_lit 1)) in
  {| Flashbot.reporter_lock := Flashbot.reporter_lock w;
     Flashbot.getCurrentReward :=
       if rewards_fail then (None, Examples.status_failed "timeout")
       else Flashbot.getCurrentReward w;
     Flashbot.eth_usd_latest := Flashbot.eth_usd_latest w;
     Flashbot.trb_usd_latest := Flashbot.trb_usd_latest w;
     Flashbot.fee_info := Flashbot.fee_info w;
     Flashbot.ethgasstation := Flashbot.ethgasstation w;
     Flashbot.datafeed_latest := Flashbot.datafeed_latest w;
     Flashbot.value_type_encode := Flashbot.value_type_encode w;
     Flashbot.getTimestampCountById :=
       if count_fail then (None, Examples.status_failed "timeout")
       else Flashbot.getTimestampCountById w;
     Flashbot.get_transaction_count := Flashbot.get_transaction_count w;
     Flashbot.block_number := Flashbot.block_number w;
     Flashbot.receipts := Flashbot.receipts w |}.

End Notions.

(** ** Facts about methods *)

Section MethodFacts.
Import Py.
Context {S A B : Type}.

Lemma bind_ok (m : M S A) (k : A -> M S B) s s1 t1 a :
  m s = (s1, t1, Ok a) ->
  bind m k s = (state_of (k a s1), t1 ++ trace_of (k a s1), outcome_of (k a s1)).
Proof.
  intros H. unfold bind. rewrite H.
  destruct (k a s1) as [[s2 t2] r]. reflexivity.
Qed.

Lemma bind_raise (m : M S A) (k : A -> M S B) s s1 t1 ex :
  m s = (s1, t1, Raise ex) -> bind m k s = (s1, t1, Raise ex).
Proof. intros H. unfold bind. now rewrite H. Qed.

Lemma state_of_triple (s : S) (t : list event) (o : result A) :
  state_of (s, t, o) = s.
Proof. reflexivity. Qed.

Lemma trace_of_triple (s : S) (t : list event) (o : result A) :
  trace_of (s, t, o) = t.
Proof. reflexivity. Qed.

Lemma outcome_of_triple (s : S) (t : list event) (o : result A) :
  outcome_of (s, t, o) = o.
Proof. reflexivity. Qed.

End MethodFacts.

(** ** Facts about the backup reporter *)

Section ConditionalFacts.
Import Py Conditional.

(** With a record read from the oracle, the check follows the last three
    rows of the table: true when [retrieved] is false, true when the record
    is older than [stale_timeout], false otherwise. *)
Lemma conditions_met_with_record (w : World) (self : ConditionalReporter)
  df r v t st :
  datafeed self = Some df ->
  oracle_getDataBefore w = (Some (r, v, t), st) ->
  ok st = true ->
  outcome_of (conditions_met w self)
  = Ok (negb r || (current_time w - t >? stale_timeout self)) /\
  state_of (conditions_met w self) = self.
Proof.
  intros Hd Hr Hs.
  unfold conditions_met, get_tellor_latest_data, bind, get, emit, ret, lift.
  repeat (simpl; rewrite ?Hd, ?Hr, ?Hs).
  destruct r; simpl; [| split; reflexivity].
  destruct (current_time w - t >? stale_timeout self); split; reflexivity.
Qed.

(** Without a datafeed the check answers false. *)
Lemma conditions_met_without_datafeed (w : World) (self : ConditionalReporter) :
  datafeed self = None ->
  outcome_of (conditions_met w self) = Ok false.
Proof.
  intros Hd. unfold conditions_met, bind, get, emit, ret. simpl.
  rewrite Hd. reflexivity.
Qed.

(** When the read fails, [get_tellor_latest_data] answers [None] and the
    check stops at [tellor_data.value]: the branch for [None] that follows
    is never reached. *)
Lemma conditions_met_read_failure (w : World) (self : ConditionalReporter) df :
  datafeed self = Some df ->
  ok (snd (oracle_getDataBefore w)) = false ->
  conditions_met w self
  = (self, [Log INFO "checking conditions and reporting if necessary";
            Log WARNING "error getting tellor data"], Raise AttributeError).
Proof.
  intros Hd Hs.
  unfold conditions_met, get_tellor_latest_data, bind, get, emit, ret, lift.
  destruct (oracle_getDataBefore w) as [data st]. simpl in Hs.
  repeat (simpl; rewrite ?Hd, ?Hs). reflexivity.
Qed.

(** A cycle whose condition check returns, and whose inherited
    [report_once] returns when it is called, reaches the sleep. *)
Lemma report_cycle_sleeps (w : World) (self : ConditionalReporter) met :
  state_of (conditions_met w self) = self ->
  outcome_of (conditions_met w self) = Ok met ->
  (met = true -> exists res, snd (report_once w self) = Ok res) ->
  outcome_of (report_cycle w self) = Ok tt /\
  exists tr, trace_of (report_cycle w self)
             = tr ++ [Log INFO "Sleeping";
                      Sleep (wait_period (state_of (report_cycle w self)))].
Proof.
  intros Hst Hm Hret. unfold report_cycle.
  destruct (conditions_met w self) as [[s1 t1] r] eqn:E.
  unfold state_of, outcome_of, trace_of in *. simpl in Hst, Hm. subst s1 r.
  unfold bind, get, emit, ret, inherited.
  destruct (is_online w); [destruct (has_native_token w) |]; simpl.
  - rewrite E. destruct met; simpl.
    + destruct (Hret eq_refl) as [res Hres]. rewrite Hres. simpl.
      split; [reflexivity |]. eexists; reflexivity.
    + split; [reflexivity |]. eexists; reflexivity.
  - split; [reflexivity | now exists []].
  - split; [reflexivity |]. now exists [Log WARNING "Unable to connect to the internet!"].
Qed.

(** A cycle that is offline, or has no native token, reaches the sleep. *)
Lemma report_cycle_sleeps_idle (w : World) (self : ConditionalReporter) :
  is_online w && has_native_token w = false ->
  outcome_of (report_cycle w self) = Ok tt /\
  sleeps (trace_of (report_cycle w self)) = [Sleep (wait_period self)].
Proof.
  intros H. unfold report_cycle, bind, get, emit, ret.
  destruct (is_online w); [destruct (has_native_token w); [discriminate |] |];
    simpl; split; reflexivity.
Qed.

(** C1. With a datafeed and a failed read of [getDataBefore], the check
    raises AttributeError instead of returning true: line 103 reads
    [tellor_data.value] before line 104 tests [tellor_data is None]. *)
Theorem conditions_met_no_record_raises :
  Conditional.conditions_met Examples.read_error_world Examples.backup_reporter
  = (Examples.backup_reporter,
     [Log INFO "checking conditions and reporting if necessary";
      Log WARNING "error getting tellor data"],
     Raise AttributeError).
Proof. reflexivity. Qed.

(** C2. A cycle of the backup reporter in which the oracle read fails
    raises out of [report]: the loop ends with the exception, before any
    sleep, although another cycle was due. *)
Theorem report_read_error_ends_loop :
  let run := Conditional.report
               [Examples.read_error_world; Examples.record_world true 10]
               None Examples.backup_reporter in
  outcome_of run = Raise AttributeError /\ sleeps (trace_of run) = [].
Proof. split; reflexivity. Qed.

End ConditionalFacts.

(** ** Facts about float comparison *)

Section FloatFacts.
Import Py.

Lemma SFcompare_swap (x y : float) :
  SFcompare y x = option_map CompOpp (SFcompare x y).
Proof.
  destruct x as [sx | sx | | sx mx ex], y as [sy | sy | | sy my ey];
    simpl; try reflexivity;
    try (destruct sx; reflexivity); try (destruct sy; reflexivity);
    try (destruct sx, sy; reflexivity).
  destruct sx, sy; simpl; try reflexivity.
  - rewrite (Z.compare_antisym ex ey).
    destruct (ex ?= ey); simpl; try reflexivity.
    rewrite CompOpp_involutive.
    now rewrite (Pos.compare_cont_antisym my mx Eq).
  - rewrite (Z.compare_antisym ex ey).
    destruct (ex ?= ey); simpl; try reflexivity.
    change Eq with (CompOpp Eq) at 1.
    now rewrite <- (Pos.compare_cont_antisym mx my Eq).
Qed.

(** On numbers, [x >= y] is the negation of [x < y]. *)
Lemma float_ge_not_lt (x y : float) :
  is_nan x = false -> is_nan y = false -> float_ge x y = negb (float_lt x y).
Proof.
  intros Hx Hy. unfold float_ge, float_lt, SFleb, SFltb.
  rewrite (SFcompare_swap x y).
  destruct (SFcompare x y) as [[| |] |] eqn:E; simpl; try reflexivity.
  destruct x as [[|] | [|] | | [|] mx ex], y as [[|] | [|] | | [|] my ey];
    simpl in *; discriminate.
Qed.

(** With a NaN on either side, both [<] and [>=] are false. *)
Lemma float_nan_unordered (x y : float) :
  is_nan x = true \/ is_nan y = true ->
  float_lt x y = false /\ float_ge x y = false.
Proof.
  intros [H | H]; destruct x, y; try discriminate; split; reflexivity.
Qed.


End FloatFacts.

(** ** Facts about the Flashbots reporter *)

Section FlashbotFacts.
Import Py Flashbot.

Ltac run := unfold bind, get, modify, lift, emit, ret, raise in *; simpl in *.
Ltac step := unfold bind, get, modify, lift, emit, ret, raise; simpl.

(** The reporter after [resolve_costs], whatever the outcome. *)
Lemma resolve_costs_state (w : World) (tips tb : Z) (r : FlashbotsReporter) :
  state_of (resolve_costs w tips tb r)
  = if transaction_type r =? 2 then
      match fee_info w with
      | None => r
      | Some q =>
          let r1 := match priority_fee r with
                    | None => with_priority_fee (Some (SafeGasPrice q)) r
                    | Some _ => r
                    end in
          match max_fee r1, priority_fee r1 with
          | None, Some p => with_max_fee (Some (p + suggestBaseFee q)) r1
          | _, _ => r1
          end
      end
    else if negb (truthy (legacy_gas_price r)) then
      with_legacy_gas_price (ethgasstation w) r
    else r.
Proof.
  unfold resolve_costs, log_rewards, suggestBaseFee_of, SafeGasPrice_of,
    optional_add_int, int_mul_optional.
  run. unfold state_of.
  destruct (transaction_type r =? 2).
  - destruct (fee_info w) as [q |]; simpl; [| reflexivity].
    destruct (priority_fee r) as [p |] eqn:P; simpl;
      destruct (max_fee r) as [m |] eqn:Mx; simpl; rewrite ?P, ?Mx; simpl;
      destruct (int_truediv_float tips lit_1e18); simpl; try reflexivity;
      destruct (int_truediv_float tb lit_1e18); simpl; try reflexivity;
      rewrite ?P, ?Mx; reflexivity.
  - destruct (negb (truthy (legacy_gas_price r))); simpl;
      destruct (int_truediv_float tips lit_1e18); simpl; try reflexivity;
      destruct (int_truediv_float tb lit_1e18); simpl; try reflexivity;
      destruct (ethgasstation w); try reflexivity;
      destruct (legacy_gas_price r); reflexivity.
Qed.

(** The settings that [resolve_costs] never assigns. *)
Lemma resolve_costs_settings (w : World) (tips tb : Z) (r : FlashbotsReporter) :
  same_settings r (state_of (resolve_costs w tips tb r)).
Proof.
  rewrite resolve_costs_state. unfold same_settings.
  destruct (transaction_type r =? 2).
  - destruct (fee_info w); [| auto].
    destruct (priority_fee r) eqn:P, (max_fee r) eqn:Mx; simpl;
      rewrite ?P, ?Mx; simpl; auto.
  - destruct (negb (truthy (legacy_gas_price r))); simpl; auto.
Qed.

(** When [resolve_costs] returns, the cost is the gas limit times the fee
    of the transaction type, as it now stands on the reporter. *)
Lemma resolve_costs_ok (w : World) (tips tb : Z) (r r' : FlashbotsReporter) t c :
  resolve_costs w tips tb r = (r', t, Ok c) ->
  exists fee,
    (if transaction_type r =? 2 then max_fee r' else legacy_gas_price r') = Some fee /\
    c = gas_limit r * fee.
Proof.
  unfold resolve_costs, log_rewards, suggestBaseFee_of, SafeGasPrice_of,
    optional_add_int, int_mul_optional.
  run.
  destruct (transaction_type r =? 2).
  - destruct (fee_info w) as [q |]; simpl; [| discriminate].
    destruct (priority_fee r) as [p |] eqn:P; simpl;
      destruct (max_fee r) as [m |] eqn:Mx; simpl; rewrite ?P, ?Mx; simpl;
      destruct (int_truediv_float tips lit_1e18); simpl; try discriminate;
      destruct (int_truediv_float tb lit_1e18); simpl; try discriminate;
      rewrite ?P, ?Mx; simpl; intros [= <- <- <-]; simpl;
      eexists; split; try reflexivity; assumption.
  - destruct (negb (truthy (legacy_gas_price r))); simpl;
      destruct (int_truediv_float tips lit_1e18); simpl; try discriminate;
      destruct (int_truediv_float tb lit_1e18); simpl; try discriminate.
    + destruct (ethgasstation w); simpl; [| discriminate].
      intros [= <- <- <-]. simpl. eexists; split; reflexivity.
    + destruct (legacy_gas_price r) eqn:G; simpl; [| discriminate].
      intros [= <- <- <-]. eexists; split; [eassumption | reflexivity].
Qed.

(** The reporter after [estimate]: the fees are resolved only when the
    rewards were read. *)
Lemma estimate_state (w : World) (r : FlashbotsReporter) :
  state_of (estimate w r)
  = match getCurrentReward w with
    | (Some (tips, tb), st) =>
        if ok st then state_of (resolve_costs w tips tb r) else r
    | (None, _) => r
    end.
Proof.
  unfold estimate.
  destruct (getCurrentReward w) as [[[tips tb] |] st].
  - destruct (ok st).
    + unfold int_truediv_float, float_truediv, float_mul_optional. run.
      unfold state_of.
      destruct (resolve_costs w tips tb r) as [[s1 t1] [c | ex]]; simpl;
        [| reflexivity].
      repeat match goal with
             | |- context [float_of_int ?n] => destruct (float_of_int n); simpl
             | |- context [trb_usd_latest w] => destruct (trb_usd_latest w); simpl
             | |- context [eth_usd_latest w] => destruct (eth_usd_latest w); simpl
             | |- context [is_zero ?x] => destruct (is_zero x); simpl
             end; reflexivity.
    + unfold str_add_optional. run. destruct (error st); reflexivity.
  - unfold str_add_optional. run.
    destruct (ok st); destruct (error st); reflexivity.
Qed.

(** When [estimate] returns an estimate, every local variable has the
    value of its formula. *)
Lemma estimate_ok (w : World) (r r' : FlashbotsReporter) t est :
  estimate w r = (r', t, Ok (inr est)) ->
  exists tips tb st t1 a b pt pe,
    getCurrentReward w = (Some (tips, tb), st) /\ ok st = true /\
    resolve_costs w tips tb r = (r', t1, Ok (costs est)) /\
    revenue est = tb + tips /\
    trb_usd_latest w = Some pt /\ eth_usd_latest w = Some pe /\
    float_of_int (revenue est) = Ok a /\
    float_of_int (costs est) = Ok b /\
    rev_usd est = float_mul (SFdiv prec emax a lit_1e18) pt /\
    costs_usd est = float_mul (SFdiv prec emax b lit_1e9) pe /\
    profit_usd est = float_sub (rev_usd est) (costs_usd est) /\
    is_zero (costs_usd est) = false /\
    percent_profit est
    = float_mul (SFdiv prec emax (profit_usd est) (costs_usd est)) lit_100.
Proof.
  unfold estimate.
  destruct (getCurrentReward w) as [[[tips tb] |] st].
  - destruct (ok st) eqn:Hok.
    + unfold int_truediv_float, float_truediv, float_mul_optional. run.
      destruct (resolve_costs w tips tb r) as [[s1 t1] [c | ex]] eqn:Hc; simpl;
        [| discriminate].
      destruct (float_of_int (tb + tips)) as [a |] eqn:Ha; simpl; [| discriminate].
      destruct (trb_usd_latest w) as [pt |]; simpl; [| discriminate].
      destruct (float_of_int c) as [b |] eqn:Hb; simpl; [| discriminate].
      destruct (eth_usd_latest w) as [pe |]; simpl; [| discriminate].
      destruct (is_zero (float_mul (SFdiv prec emax b lit_1e9) pe)) eqn:Hz;
        simpl; [discriminate |].
      intros [= <- <- <-]. simpl.
      exists tips, tb, st, t1, a, b, pt, pe. repeat split; auto.
    + unfold str_add_optional. run. destruct (error st); discriminate.
  - unfold str_add_optional. run.
    destruct (ok st); destruct (error st); discriminate.
Qed.

Lemma estimate_settings (w : World) (r : FlashbotsReporter) :
  same_settings r (state_of (estimate w r)).
Proof.
  rewrite estimate_state.
  destruct (getCurrentReward w) as [[[tips tb] |] st];
    [destruct (ok st) |]; try (unfold same_settings; auto; fail).
  apply resolve_costs_settings.
Qed.

(** [ensure_profitable] after an estimate: the decision of line 182. *)
Lemma ensure_profitable_decides (w : World) (r r' : FlashbotsReporter) t est :
  estimate w r = (r', t, Ok (inr est)) ->
  state_of (ensure_profitable w r) = r' /\
  outcome_of (ensure_profitable w r)
  = Ok (if below_threshold (expected_profit r) (percent_profit est)
        then below_status else ResponseStatus_new).
Proof.
  intros H. pose proof (estimate_settings w r) as [He _].
  rewrite H in He. unfold state_of in He. simpl in He.
  unfold ensure_profitable, state_of, outcome_of. run. rewrite H. simpl.
  rewrite He.
  destruct (below_threshold _ _); split; reflexivity.
Qed.

(** [ensure_profitable] propagates what [estimate] raises. *)
Lemma ensure_profitable_raises (w : World) (r r' : FlashbotsReporter) t ex :
  estimate w r = (r', t, Raise ex) ->
  ensure_profitable w r = (r', t, Raise ex).
Proof. intros H. unfold ensure_profitable. run. rewrite H. reflexivity. Qed.

Lemma ensure_profitable_state (w : World) (r : FlashbotsReporter) :
  state_of (ensure_profitable w r) = state_of (estimate w r).
Proof.
  unfold ensure_profitable, state_of. run.
  destruct (estimate w r) as [[s1 t1] [[st | est] | ex]]; simpl; try reflexivity.
  destruct (below_threshold _ _); reflexivity.
Qed.



(** C4, as the code has it. After an estimate, [ensure_profitable] returns
    a status: ok when the threshold is the sentinel; otherwise not ok
    exactly when percent profit < threshold, and ok in every other case.
    When neither number is NaN that is: ok iff percent profit >= threshold;
    when one of them is NaN the status is ok. *)
Theorem profit_decision (w : World) (r r' : FlashbotsReporter) t est :
  estimate w r = (r', t, Ok (inr est)) ->
  exists st,
    outcome_of (ensure_profitable w r) = Ok st /\
    (expected_profit r = YOLO -> ok st = true) /\
    (forall p, expected_profit r = Percent p ->
       (ok st = false <-> float_lt (percent_profit est) p = true) /\
       (is_nan (percent_profit est) = false -> is_nan p = false ->
        (ok st = true <-> float_ge (percent_profit est) p = true)) /\
       (is_nan (percent_profit est) = true \/ is_nan p = true -> ok st = true)).
Proof.
  intros H. destruct (ensure_profitable_decides w r r' t est H) as [_ Ho].
  eexists. split; [exact Ho |]. split.
  - intros ->. reflexivity.
  - intros p ->. simpl. split; [| split].
    + destruct (float_lt (percent_profit est) p); simpl; split; congruence.
    + intros N1 N2. rewrite (float_ge_not_lt _ _ N1 N2).
      destruct (float_lt (percent_profit est) p); simpl; split; congruence.
    + intros N. destruct (float_nan_unordered _ _ N) as [-> _]. reflexivity.
Qed.

Lemma profit_decision_witness :
  exists st,
    outcome_of (ensure_profitable
                  (Examples.market (Some (float_lit 2000)) (Some (float_lit 1)))
                  (Examples.legacy_reporter YOLO)) = Ok st /\
    ok st = true.
Proof.
  assert (E : estimate
                (Examples.market (Some (float_lit 2000)) (Some (float_lit 1)))
                (Examples.legacy_reporter YOLO)
              = (Examples.legacy_reporter YOLO,
                 [Log INFO "tips, time-based reward, gas limit, fees";
                  Log INFO "Estimated profit";
                  Log INFO "Estimated percent profit"],
                 Ok (inr {| costs := 17500000;
                            revenue := 10 ^ 18;
                            rev_usd := float_lit 1;
                            costs_usd := float_lit 35;
                            profit_usd := float_lit (-34);
                            percent_profit := S754_finite true 6835820862973074 (-46) |})))
    by (vm_compute; reflexivity).
  destruct (profit_decision _ _ _ _ _ E) as (st & Ho & Hy & _).
  exists st. split; [exact Ho | exact (Hy eq_refl)].
Defined.

(** C4, as stated, fails: at 6000 gwei with ETH priced at the largest
    double, the costs in USD overflow to infinity and the percent profit is
    NaN; it is not >= 100.0, and the status is ok all the same. *)
Lemma nan_percent_is_accepted :
  let w := Examples.market (Some float_max) (Some (float_lit 1)) in
  let r := with_legacy_gas_price (Some 6000)
             (Examples.legacy_reporter (Percent lit_100)) in
  let est := {| costs := 2100000000;
                revenue := 10 ^ 18;
                rev_usd := float_lit 1;
                costs_usd := S754_infinity false;
                profit_usd := S754_infinity true;
                percent_profit := S754_nan |} in
  outcome_of (estimate w r) = Ok (inr est) /\
  expected_profit r = Percent lit_100 /\
  float_ge (percent_profit est) lit_100 = false /\
  outcome_of (ensure_profitable w r) = Ok ResponseStatus_new /\
  ok ResponseStatus_new = true.
Proof.
  intros w r est.
  split; [| split; [| split; [| split]]]; vm_compute; reflexivity.
Qed.

(** C5, as the code has it. The division of line 179 is not guarded: when
    the costs in USD are zero, [ensure_profitable] raises
    ZeroDivisionError. A legacy gas price of 0 on the reporter counts as
    unset: it is replaced by what [ethgasstation] answers. *)
Theorem zero_cost_raises :
  (forall w r tips tb st r1 t1 c a b pt pe,
     getCurrentReward w = (Some (tips, tb), st) -> ok st = true ->
     resolve_costs w tips tb r = (r1, t1, Ok c) ->
     float_of_int (tb + tips) = Ok a -> trb_usd_latest w = Some pt ->
     float_of_int c = Ok b -> eth_usd_latest w = Some pe ->
     is_zero (float_mul (SFdiv prec emax b lit_1e9) pe) = true ->
     outcome_of (ensure_profitable w r) = Raise ZeroDivisionError) /\
  (forall w r tips tb,
     transaction_type r <> 2 -> legacy_gas_price r = Some 0 ->
     legacy_gas_price (state_of (resolve_costs w tips tb r)) = ethgasstation w).
Proof.
  split.
  - intros w r tips tb st r1 t1 c a b pt pe Hr Hok Hc Ha Hpt Hb Hpe Hz.
    assert (E : exists tr, estimate w r = (r1, tr, Raise ZeroDivisionError)).
    { unfold estimate. rewrite Hr, Hok.
      unfold int_truediv_float, float_truediv, float_mul_optional. step.
      rewrite Hc. simpl. rewrite Ha. simpl. rewrite Hpt. simpl.
      rewrite Hb. simpl. rewrite Hpe. simpl. rewrite Hz. simpl.
      eexists. reflexivity. }
    destruct E as [tr E]. rewrite (ensure_profitable_raises _ _ _ _ _ E).
    reflexivity.
  - intros w r tips tb Ht Hg. rewrite resolve_costs_state.
    destruct (transaction_type r =? 2) eqn:T; [apply Z.eqb_eq in T; contradiction |].
    rewrite Hg. reflexivity.
Qed.

Lemma zero_cost_raises_witness :
  outcome_of (ensure_profitable
                (Examples.market (Some (float_lit 0)) (Some (float_lit 1)))
                (Examples.legacy_reporter (Percent lit_100)))
  = Raise ZeroDivisionError /\
  legacy_gas_price
    (state_of (resolve_costs
                 (Examples.market (Some (float_lit 2000)) (Some (float_lit 1)))
                 0 (10 ^ 18)
                 (with_legacy_gas_price (Some 0) (Examples.legacy_reporter YOLO))))
  = Some 60.
Proof.
  split.
  - apply (proj1 zero_cost_raises
             (Examples.market (Some (float_lit 0)) (Some (float_lit 1)))
             (Examples.legacy_reporter (Percent lit_100))
             0 (10 ^ 18) Examples.status_ok
             (Examples.legacy_reporter (Percent lit_100))
             [Log INFO "tips, time-based reward, gas limit, fees"]
             17500000 (float_lit (10 ^ 18)) (float_lit 17500000)
             (float_lit 1) (float_lit 0));
      vm_compute; reflexivity.
  - apply (proj2 zero_cost_raises
             (Examples.market (Some (float_lit 2000)) (Some (float_lit 1)))
             (with_legacy_gas_price (Some 0) (Examples.legacy_reporter YOLO))
             0 (10 ^ 18)); [discriminate | reflexivity].
Defined.

(** C5, as stated, fails: with the gas asset priced at 0.0 the estimation
    raises ZeroDivisionError instead of returning a decision. *)
Lemma zero_gas_asset_price_divides_by_zero :
  outcome_of (ensure_profitable
                (Examples.market (Some (float_lit 0)) (Some (float_lit 1)))
                (Examples.legacy_reporter YOLO))
  = Raise ZeroDivisionError.
Proof. vm_compute. reflexivity. Qed.

(** Without a TRB price the estimation stops at line 174. *)
Lemma missing_trb_price_raises (w : World) (r : FlashbotsReporter)
  tips tb st r1 t1 c a :
  getCurrentReward w = (Some (tips, tb), st) -> ok st = true ->
  resolve_costs w tips tb r = (r1, t1, Ok c) ->
  float_of_int (tb + tips) = Ok a -> trb_usd_latest w = None ->
  outcome_of (ensure_profitable w r) = Raise TypeError.
Proof.
  intros Hr Hok Hc Ha Hpt.
  assert (E : exists tr, estimate w r = (r1, tr, Raise TypeError)).
  { unfold estimate. rewrite Hr, Hok.
    unfold int_truediv_float, float_truediv, float_mul_optional. step.
    rewrite Hc. simpl. rewrite Ha. simpl. rewrite Hpt. simpl.
    eexists. reflexivity. }
  destruct E as [tr E]. rewrite (ensure_profitable_raises _ _ _ _ _ E).
  reflexivity.
Qed.

(** C6. With the ETH price missing, or the TRB price missing, the
    estimation goes on to the arithmetic and raises TypeError; no status is
    returned, and the cycle of [report] ends with the exception before its
    sleep. *)
Theorem missing_price_raises_type_error :
  let r := Examples.legacy_reporter (Percent lit_100) in
  outcome_of (ensure_profitable (Examples.market None (Some (float_lit 1))) r)
  = Raise TypeError /\
  outcome_of (ensure_profitable (Examples.market (Some (float_lit 2000)) None) r)
  = Raise TypeError /\
  outcome_of (report_cycle (Examples.market None (Some (float_lit 1))) r)
  = Raise TypeError /\
  sleeps (trace_of (report_cycle (Examples.market None (Some (float_lit 1))) r)) = [].
Proof.
  intros r. split; [| split; [| split]]; vm_compute; reflexivity.
Qed.

(** *** Fees are resolved once *)

(** On a type-2 reporter whose two fees are set, [ensure_profitable]
    leaves the reporter as it is. *)
Lemma ensure_profitable_fixed (w : World) (r : FlashbotsReporter) pf mf :
  transaction_type r = 2 -> priority_fee r = Some pf -> max_fee r = Some mf ->
  state_of (ensure_profitable w r) = r.
Proof.
  intros Ht Hp Hm. rewrite ensure_profitable_state, estimate_state.
  destruct (getCurrentReward w) as [[[tips tb] |] st]; [| reflexivity].
  destruct (ok st); [| reflexivity].
  rewrite resolve_costs_state, Ht. simpl.
  destruct (fee_info w); [| reflexivity]. rewrite Hp. simpl. rewrite Hm.
  reflexivity.
Qed.

Lemma fee_fields_state (r : FlashbotsReporter) :
  state_of (fee_fields r) = r.
Proof.
  unfold fee_fields, state_of. step.
  destruct (transaction_type r =? 2); simpl.
  - destruct (toWei_gwei (max_fee r)); simpl; [| reflexivity].
    destruct (toWei_gwei (priority_fee r)); reflexivity.
  - destruct (toWei_gwei (legacy_gas_price r)); reflexivity.
Qed.

Lemma fee_fields_no_relay (r : FlashbotsReporter) :
  relay_calls (trace_of (fee_fields r)) = [].
Proof.
  unfold fee_fields, trace_of. step.
  destruct (transaction_type r =? 2); simpl.
  - destruct (toWei_gwei (max_fee r)); simpl; [| reflexivity].
    destruct (toWei_gwei (priority_fee r)); reflexivity.
  - destruct (toWei_gwei (legacy_gas_price r)); reflexivity.
Qed.

Lemma submit_bundle_relay (w : World) (st : ResponseStatus) (tx : transaction)
  (r : FlashbotsReporter) :
  relay_calls (trace_of (submit_bundle w st tx r)) = five_blocks tx (block_number w).
Proof.
  unfold submit_bundle, last_of, trace_of. step.
  destruct (receipts w (block_number w + 5)) as [rc | ex]; simpl; [reflexivity |].
  destruct ex; reflexivity.
Qed.

Lemma submit_bundle_state (w : World) (st : ResponseStatus) (tx : transaction)
  (r : FlashbotsReporter) :
  state_of (submit_bundle w st tx r)
  = match receipts w (block_number w + 5) with
    | Ok _ => with_last_submission_timestamp 0 r
    | Raise _ => r
    end.
Proof.
  unfold submit_bundle, last_of, state_of. step.
  destruct (receipts w (block_number w + 5)) as [rc | ex]; simpl; [reflexivity |].
  destruct ex; reflexivity.
Qed.

(** The outcome of a submission: the receipt with a fresh status when it
    is found; when the lookup raises TransactionNotFound, no receipt and
    the status it was given, with [error] and [e] assigned and [ok] as it
    was. *)
Lemma submit_bundle_outcome (w : World) (st : ResponseStatus) (tx : transaction)
  (r : FlashbotsReporter) :
  outcome_of (submit_bundle w st tx r)
  = match receipts w (block_number w + 5) with
    | Ok rc => Ok (Some rc, ResponseStatus_new)
    | Raise (TransactionNotFound m) =>
        Ok (None,
            set_e (Some (TransactionNotFound m))
                  (set_error (String.append "Bundle was not executed: " m) st))
    | Raise other => Raise other
    end.
Proof.
  unfold submit_bundle, last_of, outcome_of. step.
  destruct (receipts w (block_number w + 5)) as [rc | ex]; simpl; [reflexivity |].
  destruct ex; reflexivity.
Qed.

Lemma resolve_costs_no_relay (w : World) (tips tb : Z) (r : FlashbotsReporter) :
  relay_calls (trace_of (resolve_costs w tips tb r)) = [].
Proof.
  unfold resolve_costs, log_rewards, suggestBaseFee_of, SafeGasPrice_of,
    optional_add_int, int_mul_optional, trace_of.
  step.
  destruct (transaction_type r =? 2).
  - destruct (fee_info w) as [q |]; simpl; [| reflexivity].
    destruct (priority_fee r) as [p |] eqn:P; simpl;
      destruct (max_fee r) as [m |] eqn:Mx; simpl; rewrite ?P, ?Mx; simpl;
      destruct (int_truediv_float tips lit_1e18); simpl; try reflexivity;
      destruct (int_truediv_float tb lit_1e18); simpl; try reflexivity;
      rewrite ?P, ?Mx; reflexivity.
  - destruct (negb (truthy (legacy_gas_price r))); simpl;
      destruct (int_truediv_float tips lit_1e18); simpl; try reflexivity;
      destruct (int_truediv_float tb lit_1e18); simpl; try reflexivity;
      destruct (ethgasstation w); try reflexivity;
      destruct (legacy_gas_price r); reflexivity.
Qed.

Lemma relay_calls_app (t1 t2 : list event) :
  relay_calls (t1 ++ t2) = relay_calls t1 ++ relay_calls t2.
Proof. apply filter_app. Qed.

Lemma estimate_no_relay (w : World) (r : FlashbotsReporter) :
  relay_calls (trace_of (estimate w r)) = [].
Proof.
  unfold estimate.
  destruct (getCurrentReward w) as [[[tips tb] |] st].
  - destruct (ok st).
    + pose proof (resolve_costs_no_relay w tips tb r) as Hc.
      unfold int_truediv_float, float_truediv, float_mul_optional, trace_of in *.
      step.
      destruct (resolve_costs w tips tb r) as [[s1 t1] [c | ex]]; simpl in *;
        [| assumption].
      repeat match goal with
             | |- context [float_of_int ?n] => destruct (float_of_int n); simpl
             | |- context [trb_usd_latest w] => destruct (trb_usd_latest w); simpl
             | |- context [eth_usd_latest w] => destruct (eth_usd_latest w); simpl
             | |- context [is_zero ?x] => destruct (is_zero x); simpl
             end;
        rewrite ?relay_calls_app, Hc; reflexivity.
    + unfold str_add_optional, trace_of. step. destruct (error st); reflexivity.
  - unfold str_add_optional, trace_of. step.
    destruct (ok st); destruct (error st); reflexivity.
Qed.

Lemma ensure_profitable_no_relay (w : World) (r : FlashbotsReporter) :
  relay_calls (trace_of (ensure_profitable w r)) = [].
Proof.
  pose proof (estimate_no_relay w r) as H.
  unfold ensure_profitable, trace_of in *. step.
  destruct (estimate w r) as [[s1 t1] [[st | est] | ex]]; simpl in *;
    try assumption.
  - rewrite relay_calls_app, H. reflexivity.
  - destruct (below_threshold _ _); simpl; rewrite relay_calls_app, H; reflexivity.
Qed.

(** The call of the lock check at the head of [report_once]: the reporter
    then holds the timestamp that the inherited method leaves, and the call
    answers what the method answers. *)
Lemma bind_check_reporter_lock {B : Type} (w : World)
  (k : ResponseStatus -> Method B) (r : FlashbotsReporter) :
  bind (check_reporter_lock w) k r
  = match snd (reporter_lock w r) with
    | Ok lock => k lock (Notions.after_lock w r)
    | Raise ex => (Notions.after_lock w r, [], Raise ex)
    end.
Proof.
  unfold bind, check_reporter_lock, get, modify, lift, Notions.after_lock. simpl.
  destruct (snd (reporter_lock w r)) as [lock | ex]; [| reflexivity].
  destruct (k lock _) as [[s2 t2] o]. reflexivity.
Qed.

(** How far [report_once] gets: it stops before the relay, leaving the
    reporter as the lock check or [ensure_profitable] left it, or it
    reaches [submit_bundle]. *)
Lemma report_once_cases (w : World) (r : FlashbotsReporter) :
  let r0 := Notions.after_lock w r in
  (relay_calls (trace_of (report_once w r)) = [] /\
   (state_of (report_once w r) = r0 \/
    state_of (report_once w r) = state_of (ensure_profitable w r0))) \/
  (exists tx st,
     relay_calls (trace_of (report_once w r)) = five_blocks tx (block_number w) /\
     state_of (report_once w r)
     = state_of (submit_bundle w st tx (state_of (ensure_profitable w r0)))).
Proof.
  intros r0.
  pose proof (ensure_profitable_no_relay w r0) as Hn.
  unfold report_once. rewrite bind_check_reporter_lock. fold r0.
  destruct (snd (reporter_lock w r)) as [lock | ex].
  2:{ left. split; [reflexivity | left; reflexivity]. }
  destruct (negb (ok lock)).
  { left. split; [reflexivity | left; reflexivity]. }
  destruct (ensure_profitable w r0) as [[s1 t1] [st | ex]] eqn:E.
  2:{ rewrite (bind_raise _ _ _ _ _ _ E). left.
      split; [exact Hn | right; reflexivity]. }
  rewrite (bind_ok _ _ _ _ _ _ E).
  unfold state_of, trace_of in *. cbn [fst snd] in *.
  destruct (negb (ok st)).
  { left. cbn. rewrite app_nil_r. split; [assumption | right; reflexivity]. }
  destruct (datafeed_latest w) as [v |].
  2:{ left. cbn. rewrite relay_calls_app, Hn.
      split; [reflexivity | right; reflexivity]. }
  rewrite (bind_ok get _ s1 s1 [] s1 eq_refl).
  unfold state_of, trace_of. cbn [fst snd app].
  destruct (value_type_encode w v) as [value | ex].
  2:{ left. cbn. rewrite relay_calls_app, Hn.
      split; [reflexivity | right; reflexivity]. }
  destruct (getTimestampCountById w) as [count rs].
  destruct (negb (ok rs)).
  { left. unfold str_add_optional. step. rewrite relay_calls_app, Hn.
    destruct (error rs); simpl; split; try reflexivity; right; reflexivity. }
  pose proof (fee_fields_state s1) as Hfs.
  pose proof (fee_fields_no_relay s1) as Hfr.
  unfold state_of, trace_of in *.
  destruct (fee_fields s1) as [[s2 t2] [fs | ex]] eqn:F; cbn [fst snd] in *; subst s2.
  2:{ left. rewrite (bind_raise _ _ _ _ _ _ F). cbn [fst snd].
      rewrite !relay_calls_app, Hn, Hfr.
      split; [reflexivity | right; reflexivity]. }
  right. rewrite (bind_ok _ _ _ _ _ _ F).
  unfold state_of, trace_of. cbn [fst snd].
  match goal with
  | |- context [submit_bundle w ?st ?tx s1] =>
      exists tx, st;
      pose proof (submit_bundle_relay w st tx s1) as Hr;
      unfold trace_of in Hr
  end.
  rewrite !relay_calls_app, Hn, Hfr, Hr. split; reflexivity.
Qed.

(** C7. On a type-2 reporter, once the rewards are read and the gas quote
    is there: an unset priority fee becomes the quote's SafeGasPrice, an
    unset max fee becomes priority fee + suggestBaseFee, and both are on the
    reporter afterwards. Every later cycle, whatever the collaborators then
    answer, leaves the two fees as they are and prices its costs with that
    max fee. *)
Theorem fees_resolved_once (w : World) (r : FlashbotsReporter) tips tb st q :
  transaction_type r = 2 ->
  getCurrentReward w = (Some (tips, tb), st) -> ok st = true ->
  fee_info w = Some q ->
  let r1 := state_of (ensure_profitable w r) in
  let pf := match priority_fee r with Some p => p | None => SafeGasPrice q end in
  let mf := match max_fee r with Some m => m | None => pf + suggestBaseFee q end in
  priority_fee r1 = Some pf /\ max_fee r1 = Some mf /\
  forall w2,
    priority_fee (state_of (report_once w2 r1)) = Some pf /\
    max_fee (state_of (report_once w2 r1)) = Some mf /\
    (forall r2 t est, estimate w2 r1 = (r2, t, Ok (inr est)) ->
                      costs est = gas_limit r * mf).
Proof.
  intros Ht Hr Hok Hq r1 pf mf.
  assert (E1 : r1 = state_of (resolve_costs w tips tb r)).
  { unfold r1. rewrite ensure_profitable_state, estimate_state, Hr, Hok.
    reflexivity. }
  assert (Hp : priority_fee r1 = Some pf).
  { rewrite E1, resolve_costs_state, Ht, Hq. unfold pf. simpl.
    destruct (priority_fee r) eqn:P, (max_fee r) eqn:Mx; simpl;
      rewrite ?P, ?Mx; simpl; rewrite ?P, ?Mx; reflexivity. }
  assert (Hm : max_fee r1 = Some mf).
  { rewrite E1, resolve_costs_state, Ht, Hq. unfold mf, pf. simpl.
    destruct (priority_fee r) eqn:P, (max_fee r) eqn:Mx; simpl;
      rewrite ?P, ?Mx; simpl; rewrite ?P, ?Mx; reflexivity. }
  destruct (resolve_costs_settings w tips tb r) as (_ & Ht1 & Hg1).
  rewrite <- E1 in Ht1, Hg1. rewrite Ht in Ht1.
  split; [exact Hp |]. split; [exact Hm |]. intros w2.
  pose proof (ensure_profitable_fixed w2 r1 pf mf Ht1 Hp Hm) as Hfix.
  pose proof (ensure_profitable_fixed w2 (Notions.after_lock w2 r1) pf mf Ht1 Hp Hm)
    as Hfix0.
  assert (Hfees : priority_fee (state_of (report_once w2 r1)) = Some pf /\
                  max_fee (state_of (report_once w2 r1)) = Some mf).
  { destruct (report_once_cases w2 r1) as [[_ [-> | ->]] | (tx & s & _ & ->)];
      rewrite ?Hfix0; auto.
    rewrite submit_bundle_state.
    destruct (receipts w2 (block_number w2 + 5)); simpl; auto. }
  destruct Hfees as [Hp2 Hm2]. split; [exact Hp2 |]. split; [exact Hm2 |].
  intros r2 t est He.
  destruct (estimate_ok w2 r1 r2 t est He)
    as (tips2 & tb2 & st2 & t1 & _ & _ & _ & _ & _ & _ & Hc & _).
  destruct (resolve_costs_ok _ _ _ _ _ _ _ Hc) as (fee & Hf & Hcf).
  rewrite Ht1 in Hf. simpl in Hf.
  assert (E2 : r2 = r1).
  { rewrite <- Hfix, ensure_profitable_state, He. reflexivity. }
  subst r2. rewrite Hm in Hf. injection Hf as <-.
  rewrite Hcf, Hg1. reflexivity.
Qed.

Lemma fees_resolved_once_witness :
  let w := Examples.market (Some (float_lit 2000)) (Some (float_lit 1)) in
  let r1 := state_of (ensure_profitable w Examples.eip1559_reporter) in
  priority_fee r1 = Some 2 /\ max_fee r1 = Some 32 /\
  forall w2,
    priority_fee (state_of (report_once w2 r1)) = Some 2 /\
    max_fee (state_of (report_once w2 r1)) = Some 32 /\
    (forall r2 t est, estimate w2 r1 = (r2, t, Ok (inr est)) ->
                      costs est = 350000 * 32).
Proof.
  exact (fees_resolved_once
           (Examples.market (Some (float_lit 2000)) (Some (float_lit 1)))
           Examples.eip1559_reporter 0 (10 ^ 18) Examples.status_ok
           {| suggestBaseFee := 30; SafeGasPrice := 2 |}
           eq_refl eq_refl eq_refl eq_refl).
Defined.

(** When every check before the relay passes, [report_once] is the
    estimate, the fee fields and the submission of the transaction built
    from them, one after the other. *)
Lemma report_once_through_checks (w : World) (r s1 : FlashbotsReporter)
  lock t1 st v value t2 fs :
  snd (reporter_lock w r) = Ok lock -> ok lock = true ->
  ensure_profitable w (Notions.after_lock w r) = (s1, t1, Ok st) -> ok st = true ->
  datafeed_latest w = Some v -> value_type_encode w v = Ok value ->
  ok (snd (getTimestampCountById w)) = true ->
  fee_fields s1 = (s1, t2, Ok fs) ->
  let sub := submit_bundle w ResponseStatus_new (Notions.built w s1 value fs) s1 in
  report_once w r = (state_of sub, t1 ++ t2 ++ trace_of sub, outcome_of sub).
Proof.
  intros L Lk E S V En R F. cbv zeta. unfold Notions.built.
  unfold report_once. rewrite bind_check_reporter_lock, L, Lk. cbn [negb].
  rewrite (bind_ok _ _ _ _ _ _ E). rewrite S. cbn [negb]. rewrite V.
  rewrite (bind_ok get _ s1 s1 [] s1 eq_refl). rewrite En.
  destruct (getTimestampCountById w) as [count rs]. cbn [snd] in R.
  rewrite R. cbn [negb].
  rewrite (bind_ok _ _ _ _ _ _ F).
  unfold state_of, trace_of, outcome_of. cbn [fst snd app]. reflexivity.
Qed.

(** C8. A submission with current block [b] sends the bundle of the one
    signed transaction for each of the blocks b+1 .. b+5, in that order,
    then waits on the pending bundle of b+5 and looks up its receipts;
    nothing is awaited for b+1 .. b+4. A call of [report_once] makes these
    seven calls to the relay, or none; and it makes them, for the
    transaction it built, whenever the lock check and [ensure_profitable]
    answer ok, the datafeed has a value that encodes, the timestamp count is
    read and the fees are amounts of wei. *)
Theorem bundle_sent_to_five_blocks :
  (forall w st tx r,
     relay_calls (trace_of (submit_bundle w st tx r))
     = [SendBundle [tx] (block_number w + 1);
        SendBundle [tx] (block_number w + 2);
        SendBundle [tx] (block_number w + 3);
        SendBundle [tx] (block_number w + 4);
        SendBundle [tx] (block_number w + 5);
        Wait (block_number w + 5);
        Receipts (block_number w + 5)]) /\
  (forall w r,
     relay_calls (trace_of (report_once w r)) = [] \/
     exists tx,
       relay_calls (trace_of (report_once w r))
       = [SendBundle [tx] (block_number w + 1);
          SendBundle [tx] (block_number w + 2);
          SendBundle [tx] (block_number w + 3);
          SendBundle [tx] (block_number w + 4);
          SendBundle [tx] (block_number w + 5);
          Wait (block_number w + 5);
          Receipts (block_number w + 5)]) /\
  (forall w r lock s1 t1 st v value t2 fs,
     snd (reporter_lock w r) = Ok lock -> ok lock = true ->
     ensure_profitable w (Notions.after_lock w r) = (s1, t1, Ok st) ->
     ok st = true ->
     datafeed_latest w = Some v -> value_type_encode w v = Ok value ->
     ok (snd (getTimestampCountById w)) = true ->
     fee_fields s1 = (s1, t2, Ok fs) ->
     let tx := Notions.built w s1 value fs in
     relay_calls (trace_of (report_once w r))
     = [SendBundle [tx] (block_number w + 1);
        SendBundle [tx] (block_number w + 2);
        SendBundle [tx] (block_number w + 3);
        SendBundle [tx] (block_number w + 4);
        SendBundle [tx] (block_number w + 5);
        Wait (block_number w + 5);
        Receipts (block_number w + 5)]).
Proof.
  split; [| split].
  - intros w st tx r. apply submit_bundle_relay.
  - intros w r.
    destruct (report_once_cases w r) as [[H _] | (tx & st & H & _)].
    + left. exact H.
    + right. exists tx. exact H.
  - intros w r lock s1 t1 st v value t2 fs L Lk E S V En R F tx.
    pose proof (ensure_profitable_no_relay w (Notions.after_lock w r)) as H1.
    pose proof (fee_fields_no_relay s1) as H2.
    rewrite E in H1. rewrite F in H2. unfold trace_of in H1, H2.
    cbn [fst snd] in H1, H2.
    rewrite (report_once_through_checks w r s1 lock t1 st v value t2 fs
               L Lk E S V En R F).
    unfold trace_of at 1. cbn [fst snd].
    rewrite !relay_calls_app, H1, H2. cbn [app].
    apply submit_bundle_relay.
Qed.

Lemma bundle_sent_to_five_blocks_witness :
  let w := Examples.market (Some (float_lit 2000)) (Some (float_lit 1)) in
  let r := Examples.legacy_reporter YOLO in
  let tx := Notions.built w r "encoded"%string (LegacyFees 50000000000) in
  relay_calls (trace_of (report_once w r))
  = [SendBundle [tx] 101; SendBundle [tx] 102; SendBundle [tx] 103;
     SendBundle [tx] 104; SendBundle [tx] 105; Wait 105; Receipts 105].
Proof.
  intros w r tx.
  assert (E : ensure_profitable w (Notions.after_lock w r)
              = (r, [Log INFO "tips, time-based reward, gas limit, fees";
                     Log INFO "Estimated profit";
                     Log INFO "Estimated percent profit"],
                 Ok ResponseStatus_new))
    by (vm_compute; reflexivity).
  assert (F : fee_fields r = (r, [], Ok (LegacyFees 50000000000)))
    by (vm_compute; reflexivity).
  exact (proj2 (proj2 bundle_sent_to_five_blocks)
           w r ResponseStatus_new r _ ResponseStatus_new 2000 "encoded"%string
           [] (LegacyFees 50000000000)
           eq_refl eq_refl E eq_refl eq_refl eq_refl eq_refl F).
Defined.

(** A submission that finds its receipt returns it with a fresh status and
    resets [last_submission_timestamp]. *)
Lemma submit_bundle_found (w : World) (st : ResponseStatus) (tx : transaction)
  (r : FlashbotsReporter) rc :
  receipts w (block_number w + 5) = Ok rc ->
  outcome_of (submit_bundle w st tx r) = Ok (Some rc, ResponseStatus_new) /\
  last_submission_timestamp (state_of (submit_bundle w st tx r)) = 0.
Proof.
  intros H. rewrite submit_bundle_outcome, submit_bundle_state, H.
  split; reflexivity.
Qed.

(** A submission whose lookup raises TransactionNotFound returns no
    receipt, and a status whose [ok] is the [ok] of the status it was given:
    lines 317-319 assign [error] and [e] only. *)
Lemma submit_bundle_not_found (w : World) (st : ResponseStatus) (tx : transaction)
  (r : FlashbotsReporter) m :
  receipts w (block_number w + 5) = Raise (TransactionNotFound m) ->
  exists st',
    outcome_of (submit_bundle w st tx r) = Ok (None, st') /\
    ok st' = ok st /\
    error st' = Some (String.append "Bundle was not executed: " m) /\
    state_of (submit_bundle w st tx r) = r.
Proof.
  intros H. rewrite submit_bundle_outcome, submit_bundle_state, H.
  eexists. split; [reflexivity |]. repeat split.
Qed.

(** C9. When the receipt lookup raises TransactionNotFound, [report_once]
    returns no receipt and a status that carries the error message while
    its [ok] is still true: the status is the fresh one of line 215, and
    lines 317-319 never assign [ok]. *)
Theorem dropped_bundle_status_is_ok :
  outcome_of (report_once
                (Examples.dropped
                   (Examples.market (Some (float_lit 2000)) (Some (float_lit 1))))
                (Examples.legacy_reporter YOLO))
  = Ok (None,
        {| ok := true;
           error := Some "Bundle was not executed: not found"%string;
           e := Some (TransactionNotFound "not found") |}).
Proof. vm_compute. reflexivity. Qed.

(** With the reporter lock active, [report_once] returns the lock's
    status at once. *)
Lemma report_once_locked (w : World) (r : FlashbotsReporter) lock :
  snd (reporter_lock w r) = Ok lock -> ok lock = false ->
  report_once w r = (Notions.after_lock w r, [], Ok (None, lock)).
Proof.
  intros L H. unfold report_once. rewrite bind_check_reporter_lock, L, H.
  reflexivity.
Qed.

(** When [ensure_profitable] returns a status that is not ok (rewards not
    read, or profit below the threshold), [report_once] returns it. *)
Lemma report_once_rejected (w : World) (r r' : FlashbotsReporter) lock t st :
  snd (reporter_lock w r) = Ok lock -> ok lock = true ->
  ensure_profitable w (Notions.after_lock w r) = (r', t, Ok st) -> ok st = false ->
  outcome_of (report_once w r) = Ok (None, st).
Proof.
  intros L Hl E Hs. unfold report_once.
  rewrite bind_check_reporter_lock, L, Hl. cbn [negb].
  rewrite (bind_ok _ _ _ _ _ _ E). rewrite Hs. reflexivity.
Qed.

(** A cycle whose [report_once] returns goes on to sleep. *)
Lemma flashbot_cycle_sleeps (w : World) (r : FlashbotsReporter) res :
  outcome_of (report_once w r) = Ok res ->
  outcome_of (report_cycle w r) = Ok tt /\
  trace_of (report_cycle w r) = trace_of (report_once w r) ++ [Sleep 7].
Proof.
  intros H. unfold report_cycle, outcome_of, trace_of in *. unfold bind.
  destruct (report_once w r) as [[s1 t1] o]. simpl in H. subst o.
  split; reflexivity.
Qed.

End FlashbotFacts.

(** ** Facts about [filter_batch_result] *)

Section FilterBatchResultFacts.
Import Py TipListener.

Variables A Q V : Type.
Variable A_eq_dec : forall x y : A, {x = y} + {x <> y}.
Variable Q_eq_dec : forall x y : Q, {x = y} + {x <> y}.

Local Abbreviation keys d := (map fst d).
Local Abbreviation append := (append_at Q_eq_dec).
Local Abbreviation find := (lookup Q_eq_dec).
Local Abbreviation group_entries := (TipListener.group_entries Q_eq_dec).
Local Abbreviation has_second := (TipListener.has_second Q_eq_dec).

Lemma lookup_append_at (X : Type) (d : defaultdict Q X) (q q' : Q) (x : X) :
  find (append d q x) q' =
  if Q_eq_dec q' q then find d q' ++ [x] else find d q'.
Proof.
  induction d as [| [q0 l] d IH]; simpl.
  - destruct (Q_eq_dec q' q); reflexivity.
  - destruct (Q_eq_dec q q0) as [E | N]; simpl.
    + subst q0. destruct (Q_eq_dec q' q); reflexivity.
    + rewrite IH. destruct (Q_eq_dec q' q0) as [E' | N'].
      * subst q0. destruct (Q_eq_dec q' q); [congruence | reflexivity].
      * reflexivity.
Qed.

Lemma append_at_fresh (X : Type) (d : defaultdict Q X) (q : Q) (x : X) :
  ~ In q (keys d) -> append d q x = d ++ [(q, [x])].
Proof.
  induction d as [| [q0 l] d IH]; simpl; intros H.
  - reflexivity.
  - destruct (Q_eq_dec q q0) as [E | N].
    + exfalso. apply H. left. congruence.
    + rewrite IH by tauto. reflexivity.
Qed.

Lemma append_at_last (X : Type) (d : defaultdict Q X) (q : Q) (l : list X) (x : X) :
  ~ In q (keys d) -> append (d ++ [(q, l)]) q x = d ++ [(q, l ++ [x])].
Proof.
  induction d as [| [q0 l0] d IH]; simpl; intros H.
  - destruct (Q_eq_dec q q); [reflexivity | congruence].
  - destruct (Q_eq_dec q q0) as [E | N].
    + exfalso. apply H. left. congruence.
    + rewrite IH by tauto. reflexivity.
Qed.

Lemma keys_append_at (X : Type) (d : defaultdict Q X) (q : Q) (x : X) :
  keys (append d q x) = if in_dec Q_eq_dec q (keys d) then keys d else keys d ++ [q].
Proof.
  induction d as [| [q0 l] d IH]; simpl.
  - reflexivity.
  - destruct (Q_eq_dec q q0) as [E | N]; simpl.
    + destruct (Q_eq_dec q0 q); [reflexivity | congruence].
    + rewrite IH. destruct (Q_eq_dec q0 q); [congruence |].
      destruct (in_dec Q_eq_dec q (keys d)); reflexivity.
Qed.

Lemma NoDup_snoc (X : Type) (l : list X) (x : X) :
  NoDup l -> ~ In x l -> NoDup (l ++ [x]).
Proof.
  intros Hl Hx. apply NoDup_rev in Hl.
  rewrite <- (rev_involutive (l ++ [x])). apply NoDup_rev.
  rewrite rev_app_distr. simpl. constructor; [| assumption].
  rewrite <- in_rev. assumption.
Qed.

Lemma NoDup_keys_append_at (X : Type) (d : defaultdict Q X) (q : Q) (x : X) :
  NoDup (keys d) -> NoDup (keys (append d q x)).
Proof.
  intros H. rewrite keys_append_at.
  destruct (in_dec Q_eq_dec q (keys d)); [assumption | now apply NoDup_snoc].
Qed.

Lemma In_keys_append_at (X : Type) (d : defaultdict Q X) (q q' : Q) (x : X) :
  In q' (keys (append d q x)) <-> q' = q \/ In q' (keys d).
Proof.
  rewrite keys_append_at.
  destruct (in_dec Q_eq_dec q (keys d)) as [I | I].
  - split; [tauto | intros [-> | H]; assumption].
  - rewrite in_app_iff. simpl. split; [intros [H | [H | []]] | intros [H | H]]; auto.
Qed.

Lemma nonempty_append_at (X : Type) (d : defaultdict Q X) (q : Q) (x : X) :
  Forall (fun e => snd e <> []) d -> Forall (fun e => snd e <> []) (append d q x).
Proof.
  induction d as [| [q0 l] d IH]; simpl; intros H.
  - constructor; [discriminate | constructor].
  - inversion H; subst. destruct (Q_eq_dec q q0).
    + constructor; [| assumption]. simpl. destruct l; discriminate.
    + constructor; [assumption | auto].
Qed.

Lemma concat_append_at (X : Type) (d : defaultdict Q X) (q : Q) (x : X) :
  Permutation (List.concat (map snd (append d q x))) (x :: List.concat (map snd d)).
Proof.
  induction d as [| [q0 l] d IH]; simpl.
  - reflexivity.
  - destruct (Q_eq_dec q q0); simpl.
    + rewrite <- app_assoc. simpl. symmetry. apply Permutation_middle.
    + rewrite IH. symmetry. apply Permutation_middle.
Qed.

Lemma lookup_In (X : Type) (d : defaultdict Q X) (q : Q) (l : list X) :
  NoDup (keys d) -> In (q, l) d -> find d q = l.
Proof.
  induction d as [| [q0 l0] d IH]; simpl; intros Hnd Hin; [contradiction |].
  inversion Hnd as [| ? ? Hno Hnd']; subst.
  destruct Hin as [E | Hin].
  - inversion E; subst. destruct (Q_eq_dec q q); [reflexivity | congruence].
  - destruct (Q_eq_dec q q0) as [E | N].
    + subst q0. exfalso. apply Hno. apply (in_map fst) in Hin. exact Hin.
    + auto.
Qed.

Lemma map_append_at (X Y : Type) (f : X -> Y) (d : defaultdict Q X) (q : Q) (x : X) :
  map (on_lists f) (append d q x) = append (map (on_lists f) d) q (f x).
Proof.
  induction d as [| [q0 l] d IH]; simpl.
  - reflexivity.
  - destruct (Q_eq_dec q q0); simpl.
    + unfold on_lists at 1. simpl. rewrite map_app. reflexivity.
    + rewrite IH. reflexivity.
Qed.

Lemma group_keys_entries (data : dict A Q V) (m : defaultdict Q (Key A Q * V)) :
  fold_left (fun mapping k => append mapping (snd k) k) (map fst data)
            (map (on_lists fst) m)
  = map (on_lists fst) (group_entries data m).
Proof.
  revert m. induction data as [| kv data IH]; intros m; simpl.
  - reflexivity.
  - rewrite <- IH. rewrite map_append_at. reflexivity.
Qed.

Lemma lookup_group_entries (data : dict A Q V) m (q : Q) :
  find (group_entries data m) q = find m q ++ filter (has_second q) data.
Proof.
  revert m. induction data as [| kv data IH]; intros m; simpl.
  - now rewrite app_nil_r.
  - unfold group_entries in *. simpl. rewrite IH, lookup_append_at.
    unfold has_second at 2.
    repeat match goal with
           | |- context [Q_eq_dec ?a ?b] => destruct (Q_eq_dec a b)
           end; try (exfalso; eauto; fail).
    + rewrite <- app_assoc. reflexivity.
    + reflexivity.
Qed.

Lemma NoDup_group_entries (data : dict A Q V) m :
  NoDup (keys m) -> NoDup (keys (group_entries data m)).
Proof.
  revert m. induction data as [| kv data IH]; intros m H; simpl; [assumption |].
  apply IH. now apply NoDup_keys_append_at.
Qed.

Lemma nonempty_group_entries (data : dict A Q V) m :
  Forall (fun e => snd e <> []) m ->
  Forall (fun e => snd e <> []) (group_entries data m).
Proof.
  revert m. induction data as [| kv data IH]; intros m H; simpl; [assumption |].
  apply IH. now apply nonempty_append_at.
Qed.

Lemma In_keys_group_entries (data : dict A Q V) m (q : Q) :
  In q (keys (group_entries data m)) <->
  In q (keys m) \/ In q (map (fun kv => snd (fst kv)) data).
Proof.
  revert m. induction data as [| kv data IH]; intros m; simpl.
  - tauto.
  - unfold group_entries in *. simpl. rewrite IH, In_keys_append_at.
    split; intros H; intuition congruence.
Qed.

Lemma concat_group_entries (data : dict A Q V) m :
  Permutation (List.concat (map snd (group_entries data m)))
              (List.concat (map snd m) ++ data).
Proof.
  revert m. induction data as [| kv data IH]; intros m; simpl.
  - now rewrite app_nil_r.
  - unfold group_entries in *. simpl. rewrite IH, concat_append_at.
    simpl. apply Permutation_middle.
Qed.

Lemma getitem_In (data : dict A Q V) (k : Key A Q) (v : V) :
  NoDup (keys data) -> In (k, v) data -> getitem A_eq_dec Q_eq_dec data k = Ok v.
Proof.
  induction data as [| [k0 v0] data IH]; simpl; intros Hnd Hin; [contradiction |].
  inversion Hnd as [| ? ? Hno Hnd']; subst.
  destruct (Key_eq_dec A Q A_eq_dec Q_eq_dec k k0) as [E | N].
  - destruct Hin as [E' | Hin]; [congruence |].
    exfalso. apply Hno. subst k0. apply (in_map fst) in Hin. exact Hin.
  - destruct Hin as [E' | Hin]; [congruence | auto].
Qed.

Lemma append_values_entries (data : dict A Q V) (es : list (Key A Q * V))
  (results : defaultdict Q V) (q : Q) :
  NoDup (keys data) -> incl es data ->
  append_values A Q V A_eq_dec Q_eq_dec data results q (map fst es)
  = Ok (fold_left (fun r v => append r q v) (map snd es) results).
Proof.
  intros Hnd. revert results.
  induction es as [| [k v] es IH]; intros results Hin; simpl.
  - reflexivity.
  - rewrite (getitem_In data k v Hnd) by (apply Hin; now left).
    apply IH. intros x Hx. apply Hin. now right.
Qed.

Lemma fold_append_last (X : Type) (d : defaultdict Q X) (q : Q) (l vs : list X) :
  ~ In q (keys d) ->
  fold_left (fun r v => append r q v) vs (d ++ [(q, l)]) = d ++ [(q, l ++ vs)].
Proof.
  intros H. revert l. induction vs as [| v vs IH]; intros l; simpl.
  - now rewrite app_nil_r.
  - rewrite append_at_last by assumption. rewrite IH, <- app_assoc. reflexivity.
Qed.

Lemma fold_append_fresh (X : Type) (d : defaultdict Q X) (q : Q) (vs : list X) :
  ~ In q (keys d) -> vs <> [] ->
  fold_left (fun r v => append r q v) vs d = d ++ [(q, vs)].
Proof.
  intros H Hvs. destruct vs as [| v vs]; [congruence |]. simpl.
  rewrite append_at_fresh by assumption. now rewrite fold_append_last.
Qed.

Lemma collect_entries (data : dict A Q V) (g : defaultdict Q (Key A Q * V))
  (results : defaultdict Q V) :
  NoDup (keys data) ->
  NoDup (keys results ++ keys g) ->
  Forall (fun e => snd e <> []) g ->
  Forall (fun e => incl (snd e) data) g ->
  collect A Q V A_eq_dec Q_eq_dec data results (map (on_lists fst) g)
  = Ok (results ++ map (on_lists snd) g).
Proof.
  intros Hnd. revert results.
  induction g as [| [q es] g IH]; intros results Hk Hne Hin; simpl.
  - now rewrite app_nil_r.
  - inversion Hne as [| ? ? Hes Hne']; subst.
    inversion Hin as [| ? ? Hsub Hin']; subst. simpl in *.
    rewrite append_values_entries by assumption.
    assert (Hq : ~ In q (keys results)).
    { intros I. apply NoDup_remove_2 in Hk. apply Hk.
      apply in_or_app. now left. }
    rewrite fold_append_fresh; [| assumption | destruct es; [congruence | discriminate]].
    rewrite IH; [| | assumption | assumption].
    + rewrite <- app_assoc. reflexivity.
    + rewrite map_app. simpl. rewrite <- app_assoc. exact Hk.
Qed.

Lemma filter_batch_result_entries (data : dict A Q V) :
  NoDup (keys data) ->
  filter_batch_result A_eq_dec Q_eq_dec data
  = Ok (map (on_lists snd) (group_entries data [])).
Proof.
  intros Hnd. unfold filter_batch_result.
  replace (group_keys Q_eq_dec data)
    with (map (on_lists fst) (group_entries data []))
    by (symmetry; apply (group_keys_entries data [])).
  rewrite collect_entries; try assumption.
  - reflexivity.
  - simpl. apply NoDup_group_entries. constructor.
  - apply nonempty_group_entries. constructor.
  - apply Forall_forall. intros [q es] Hin. simpl.
    assert (E : find (group_entries data []) q = es).
    { apply lookup_In; [apply NoDup_group_entries; constructor | assumption]. }
    rewrite lookup_group_entries in E. simpl in E. subst es.
    intros x Hx. apply filter_In in Hx. tauto.
Qed.

Lemma keys_on_lists (X Y : Type) (f : X -> Y) (d : defaultdict Q X) :
  keys (map (on_lists f) d) = keys d.
Proof. rewrite map_map. reflexivity. Qed.

Lemma concat_on_lists (X Y : Type) (f : X -> Y) (d : defaultdict Q X) :
  List.concat (map snd (map (on_lists f) d)) = map f (List.concat (map snd d)).
Proof.
  induction d as [| [q l] d IH]; simpl; [reflexivity |].
  now rewrite IH, map_app.
Qed.

(** C10. For a dictionary keyed by pairs (no key twice, as in every
    [dict]), [filter_batch_result] returns; the keys of the result are the
    second components of the input keys, each once; the list at [q] is
    exactly the values [data[k]] of the keys [k] with [k[1] = q], in the
    order of the input; and the lists together hold the input values, each
    entry once, so that their total length is the number of entries. *)
Theorem filter_batch_result_groups (data : dict A Q V) :
  NoDup (keys data) ->
  exists results,
    filter_batch_result A_eq_dec Q_eq_dec data = Ok results /\
    NoDup (keys results) /\
    (forall q, In q (keys results) <-> In q (map (fun kv => snd (fst kv)) data)) /\
    (forall q l, In (q, l) results -> l = values_for Q_eq_dec q data) /\
    Permutation (List.concat (map snd results)) (map snd data) /\
    List.length (List.concat (map snd results)) = List.length data.
Proof.
  intros Hnd. eexists. split; [apply filter_batch_result_entries; assumption |].
  assert (Hg : NoDup (keys (group_entries data []))).
  { apply NoDup_group_entries. constructor. }
  assert (Hp : Permutation (List.concat (map snd (map (on_lists snd) (group_entries data []))))
                           (map snd data)).
  { rewrite concat_on_lists. apply Permutation_map.
    rewrite concat_group_entries. reflexivity. }
  repeat split.
  - rewrite keys_on_lists. assumption.
  - rewrite keys_on_lists, In_keys_group_entries. simpl. tauto.
  - rewrite keys_on_lists, In_keys_group_entries. simpl. tauto.
  - intros q l Hin. apply in_map_iff in Hin. destruct Hin as [[q' es] [E Hin]].
    unfold on_lists in E. simpl in E. inversion E; subst.
    apply lookup_In in Hin; [| assumption].
    rewrite lookup_group_entries in Hin. simpl in Hin. subst es. reflexivity.
  - exact Hp.
  - rewrite (Permutation_length Hp). apply length_map.
Qed.

End FilterBatchResultFacts.

Lemma filter_batch_result_groups_witness :
  exists results,
    TipListener.filter_batch_result Z.eq_dec Z.eq_dec Examples.batch = Py.Ok results /\
    NoDup (map fst results) /\
    (forall q, In q (map fst results)
               <-> In q (map (fun kv => snd (fst kv)) Examples.batch)) /\
    (forall q l, In (q, l) results
                 -> l = TipListener.values_for Z.eq_dec q Examples.batch) /\
    Permutation (List.concat (map snd results)) (map snd Examples.batch) /\
    List.length (List.concat (map snd results)) = List.length Examples.batch.
Proof.
  apply (filter_batch_result_groups Z Z Z Z.eq_dec Z.eq_dec Examples.batch).
  simpl. repeat constructor; simpl; intuition congruence.
Defined.

(** ** More about the backup reporter *)

Section ConditionalMore.
Import Py Conditional Notions.

Ltac unfold_methods :=
  unfold conditions_met, get_tellor_latest_data, GetDataBefore_of, value_of,
    bind, get, emit, ret, lift, state_of, trace_of, outcome_of.

(** [get_tellor_latest_data] turns a failed read into [None] (with a
    warning) rather than an exception, gives the record when the read
    succeeds with data, and raises only when a successful read carries no
    data; it never changes the reporter. *)
Lemma get_tellor_latest_data_cases (w : World) (self : ConditionalReporter) :
  state_of (get_tellor_latest_data w self) = self /\
  (datafeed self = None -> outcome_of (get_tellor_latest_data w self) = Ok None) /\
  (ok (snd (oracle_getDataBefore w)) = false ->
   outcome_of (get_tellor_latest_data w self) = Ok None) /\
  (forall df r v t st,
     datafeed self = Some df -> oracle_getDataBefore w = (Some (r, v, t), st) ->
     ok st = true ->
     outcome_of (get_tellor_latest_data w self)
     = Ok (Some {| retrieved := r; value := v; timestampRetrieved := t |})) /\
  (forall df st,
     datafeed self = Some df -> oracle_getDataBefore w = (None, st) ->
     ok st = true ->
     outcome_of (get_tellor_latest_data w self) = Raise TypeError).
Proof.
  unfold_methods.
  destruct (datafeed self) as [df |] eqn:D;
    destruct (oracle_getDataBefore w) as [[[[r v] t] |] st] eqn:O; simpl;
    destruct (ok st) eqn:S; simpl;
    repeat split; try reflexivity; try congruence;
    try (intros; congruence).
Qed.

(** [conditions_met] never changes the reporter and emits log lines
    only. *)
Lemma conditions_met_pure (w : World) (self : ConditionalReporter) :
  state_of (conditions_met w self) = self /\
  Forall (fun ev => is_log ev = true) (trace_of (conditions_met w self)).
Proof.
  unfold_methods.
  destruct (datafeed self) as [df |] eqn:D; simpl.
  - destruct (oracle_getDataBefore w) as [[[[r v] t] |] st] eqn:O; simpl;
      destruct (ok st) eqn:S; repeat (simpl; rewrite ?D, ?O, ?S);
      try (split; [reflexivity | repeat constructor]; fail).
    destruct r; simpl;
      [destruct (current_time w - t >? stale_timeout self); simpl |];
      (split; [reflexivity | repeat constructor]).
  - split; [reflexivity | repeat constructor].
Qed.

(** X1. [conditions_met] never changes the reporter and emits log lines
    only; it returns a decision exactly when no datafeed is set or the read
    succeeded with a record, and raises in every other case. *)
Theorem conditions_met_returns_iff (w : World) (self : ConditionalReporter) :
  state_of (conditions_met w self) = self /\
  Forall (fun ev => is_log ev = true) (trace_of (conditions_met w self)) /\
  ((exists met, outcome_of (conditions_met w self) = Ok met) <->
   datafeed self = None \/
   exists record, fst (oracle_getDataBefore w) = Some record /\
                  ok (snd (oracle_getDataBefore w)) = true).
Proof.
  destruct (conditions_met_pure w self) as [Hs Hl].
  split; [exact Hs |]. split; [exact Hl |]. clear Hs Hl.
  unfold_methods.
  destruct (datafeed self) as [df |] eqn:D; simpl.
  - destruct (oracle_getDataBefore w) as [[[[r v] t] |] st] eqn:O; simpl;
      destruct (ok st) eqn:S; repeat (simpl; rewrite ?D, ?O, ?S).
    + destruct r; simpl;
        [destruct (current_time w - t >? stale_timeout self); simpl |];
        (split; [intros _; right; eexists; split; reflexivity
                | intros _; eexists; reflexivity]).
    + split; [intros [met H]; discriminate |].
      intros [H | (rec & _ & H)]; discriminate.
    + split; [intros [met H]; discriminate |].
      intros [H | (rec & H & _)]; discriminate.
    + split; [intros [met H]; discriminate |].
      intros [H | (rec & H & _)]; discriminate.
  - split; [intros _; left; reflexivity | intros _; eexists; reflexivity].
Qed.

(** X2. Staleness is strict: with a record that was retrieved,
    [conditions_met] answers true exactly when more than [stale_timeout]
    seconds have passed since [timestampRetrieved]; a record exactly
    [stale_timeout] seconds old is still recent enough. *)
Theorem conditions_met_stale_iff (w : World) (self : ConditionalReporter)
  df v t st :
  datafeed self = Some df ->
  oracle_getDataBefore w = (Some (true, v, t), st) -> ok st = true ->
  (outcome_of (conditions_met w self) = Ok true <->
   current_time w - t > stale_timeout self) /\
  (current_time w = t + stale_timeout self ->
   outcome_of (conditions_met w self) = Ok false).
Proof.
  intros Hd Ho Hs.
  destruct (conditions_met_with_record w self df true v t st Hd Ho Hs) as [-> _].
  simpl. split.
  - destruct (current_time w - t >? stale_timeout self) eqn:E.
    + apply Z.gtb_gt in E. split; [intros _; exact E | reflexivity].
    + split; [discriminate |]. intros H. apply Z.gtb_gt in H. congruence.
  - intros E. destruct (current_time w - t >? stale_timeout self) eqn:G;
      [| reflexivity].
    apply Z.gtb_gt in G. lia.
Qed.

(** X3. Once the condition holds for a record it holds at every later
    time and under every shorter timeout: a reporter that should report
    keeps being told so until a new record appears. *)
Theorem conditions_met_monotone (w w' : World) (self self' : ConditionalReporter)
  df df' r v t st st' :
  datafeed self = Some df -> datafeed self' = Some df' ->
  oracle_getDataBefore w = (Some (r, v, t), st) -> ok st = true ->
  oracle_getDataBefore w' = (Some (r, v, t), st') -> ok st' = true ->
  current_time w <= current_time w' ->
  stale_timeout self' <= stale_timeout self ->
  outcome_of (conditions_met w self) = Ok true ->
  outcome_of (conditions_met w' self') = Ok true.
Proof.
  intros Hd Hd' Ho Hs Ho' Hs' Ht Hstale.
  destruct (conditions_met_with_record w self df r v t st Hd Ho Hs) as [-> _].
  destruct (conditions_met_with_record w' self' df' r v t st' Hd' Ho' Hs') as [-> _].
  intros [= H]. f_equal.
  destruct r; simpl in *; [| reflexivity].
  apply Z.gtb_gt in H. apply Z.gtb_gt. lia.
Qed.

Lemma only_logs_no_sleep (tr : list event) :
  Forall (fun ev => is_log ev = true) tr -> sleeps tr = [].
Proof.
  induction 1 as [| ev tr Hev _ IH]; [reflexivity |].
  unfold sleeps in *. simpl. destruct ev; try discriminate. exact IH.
Qed.

(** One cycle either returns, and then it has slept once, for the
    [wait_period] of the reporter as the cycle leaves it, or it raises, and
    then it has not slept. *)
Lemma report_cycle_summary (w : World) (self : ConditionalReporter) :
  let run := report_cycle w self in
  (outcome_of run = Ok tt /\
   sleeps (trace_of run) = [Sleep (wait_period (state_of run))]) \/
  ((exists ex, outcome_of run = Raise ex) /\ sleeps (trace_of run) = []).
Proof.
  destruct (conditions_met_pure w self) as (Hs & Hl).
  apply only_logs_no_sleep in Hl.
  unfold report_cycle, bind, get, emit, ret, inherited,
    state_of, trace_of, outcome_of in *.
  destruct (is_online w); [destruct (has_native_token w) |]; simpl.
  - destruct (conditions_met w self) as [[s1 t1] [met | ex]]; simpl in *; subst s1.
    + destruct met; simpl.
      * destruct (snd (report_once w self)) as [res | ex]; simpl.
        -- left. split; [reflexivity |].
           unfold sleeps in *. rewrite !filter_app, Hl. reflexivity.
        -- right. split; [eexists; reflexivity |].
           unfold sleeps in *. rewrite !filter_app, Hl. reflexivity.
      * left. split; [reflexivity |].
        unfold sleeps in *. rewrite !filter_app, Hl. reflexivity.
    + right. split; [eexists; reflexivity | exact Hl].
  - left. split; reflexivity.
  - left. split; reflexivity.
Qed.

(** The loop itself assigns nothing: a cycle changes a field of the
    reporter only through the inherited [report_once]. *)
Lemma report_cycle_wait_period (w : World) (self : ConditionalReporter) :
  (forall s, wait_period (fst (report_once w s)) = wait_period s) ->
  wait_period (state_of (report_cycle w self)) = wait_period self.
Proof.
  intros Hw. destruct (conditions_met_pure w self) as (Hs & _).
  unfold report_cycle, bind, get, emit, ret, inherited,
    state_of, trace_of, outcome_of in *.
  destruct (is_online w); [destruct (has_native_token w) |]; simpl;
    try reflexivity.
  destruct (conditions_met w self) as [[s1 t1] [met | ex]]; simpl in *; subst s1;
    [| reflexivity].
  destruct met; simpl; [| reflexivity].
  destruct (snd (report_once w self)); simpl; apply Hw.
Qed.

Lemma cycles_due_continue (report_count : option Z) (available : nat) :
  continue report_count = true ->
  cycles_due report_count (S available)
  = S (cycles_due (decrement report_count) available).
Proof.
  intros C. destruct report_count as [n |]; simpl in *; [| reflexivity].
  apply Z.gtb_gt in C.
  replace (Z.to_nat n) with (S (Z.to_nat (n - 1))) by lia.
  reflexivity.
Qed.

Lemma cycles_due_stop (report_count : option Z) (available : nat) :
  continue report_count = false -> cycles_due report_count available = 0%nat.
Proof.
  intros C. destruct report_count as [n |]; simpl in *; [| discriminate].
  assert (n <= 0) by (destruct (n >? 0) eqn:G; [discriminate | lia]).
  replace (Z.to_nat n) with 0%nat by lia. reflexivity.
Qed.

(** The first cycle of a loop that goes on. *)
Lemma report_cons (w : World) (ws : list World) (report_count : option Z)
  (self : ConditionalReporter) :
  continue report_count = true ->
  report (w :: ws) report_count self
  = bind (report_cycle w) (fun _ => report ws (decrement report_count)) self.
Proof. intros C. simpl. rewrite C. reflexivity. Qed.

(** X4. [report] runs no cycle when [report_count] is zero or negative;
    when it returns it has run as many cycles as were due ([report_count]
    of them, or every one there is when [report_count] is [None]) and has
    slept once in each; when it raises, the cycles before the one that
    raised all returned and slept, and that cycle ends the loop without a
    sleep. Its sleeps are all of [wait_period], as long as the inherited
    [report_once] leaves that field alone. *)
Theorem report_runs_report_count (ws : list World) (report_count : option Z)
  (self : ConditionalReporter) :
  let run := report ws report_count self in
  let due := cycles_due report_count (List.length ws) in
  (due = 0%nat -> run = (self, [], Ok tt)) /\
  (outcome_of run = Ok tt -> List.length (sleeps (trace_of run)) = due) /\
  (forall ex, outcome_of run = Raise ex ->
     exists k w,
       (k < due)%nat /\ nth_error ws k = Some w /\
       let before := report (firstn k ws) report_count self in
       let last := report_cycle w (state_of before) in
       outcome_of before = Ok tt /\
       List.length (sleeps (trace_of before)) = k /\
       outcome_of last = Raise ex /\
       sleeps (trace_of last) = [] /\
       run = (state_of last, trace_of before ++ trace_of last, Raise ex)) /\
  ((forall w s, In w ws -> wait_period (fst (report_once w s)) = wait_period s) ->
   wait_period (state_of run) = wait_period self /\
   Forall (fun ev => ev = Sleep (wait_period self)) (sleeps (trace_of run))).
Proof.
  revert report_count self.
  induction ws as [| w ws IH]; intros report_count self; cbv zeta.
  - simpl report. split; [reflexivity |].
    split; [intros _; destruct report_count; simpl; lia |].
    split; [discriminate |]. intros _. split; [reflexivity | constructor].
  - destruct (continue report_count) eqn:C.
    2:{ simpl report. rewrite C.
        split; [reflexivity |].
        split; [intros _; rewrite cycles_due_stop by exact C; reflexivity |].
        split; [discriminate |]. intros _. split; [reflexivity | constructor]. }
    rewrite (report_cons w ws report_count self C).
    change (List.length (w :: ws)) with (S (List.length ws)).
    rewrite (cycles_due_continue _ _ C).
    pose proof (report_cycle_summary w self) as Hc. cbv zeta in Hc.
    pose proof (report_cycle_wait_period w self) as Hw.
    destruct (report_cycle w self) as [[s1 t1] [u | ex1]] eqn:Ec.
    + destruct Hc as [[_ Hc] | [[ex H] _]]; [| discriminate].
      rewrite state_of_triple, trace_of_triple in Hc.
      rewrite state_of_triple in Hw.
      destruct (IH (decrement report_count) s1) as (_ & Hok & Hraise & Hsame).
      rewrite (bind_ok _ _ _ _ _ _ Ec).
      rewrite ?state_of_triple, ?trace_of_triple, ?outcome_of_triple.
      split; [discriminate |].
      split; [| split].
      * intros H. unfold sleeps in *. rewrite filter_app, Hc, length_app.
        simpl. f_equal. apply Hok. exact H.
      * intros ex H. destruct (Hraise ex H)
          as (k & w' & Hk & Hn & Hb & Hbs & Hl & Hls & Hrun).
        exists (S k), w'. split; [lia |]. split; [exact Hn |].
        change (firstn (S k) (w :: ws)) with (w :: firstn k ws).
        rewrite (report_cons w (firstn k ws) report_count self C).
        rewrite (bind_ok _ _ _ _ _ _ Ec).
        rewrite ?state_of_triple, ?trace_of_triple, ?outcome_of_triple.
        split; [exact Hb |].
        split; [unfold sleeps in *; rewrite filter_app, Hc, length_app, Hbs;
                reflexivity |].
        split; [exact Hl |]. split; [exact Hls |].
        rewrite Hrun.
        rewrite ?state_of_triple, ?trace_of_triple, ?outcome_of_triple.
        rewrite app_assoc. reflexivity.
      * intros Hall.
        assert (H1 : wait_period s1 = wait_period self).
        { apply Hw. intros s. apply Hall. left. reflexivity. }
        destruct Hsame as [Hs2 Hf].
        { intros w' s Hin. apply Hall. right. exact Hin. }
        split; [congruence |].
        unfold sleeps in *. rewrite filter_app, Hc. apply Forall_app.
        split; [repeat constructor; congruence |].
        rewrite <- H1. exact Hf.
    + destruct Hc as [[H _] | [_ Hc]]; [discriminate |].
      rewrite trace_of_triple in Hc. rewrite state_of_triple in Hw.
      rewrite (bind_raise _ _ _ _ _ _ Ec).
      rewrite ?state_of_triple, ?trace_of_triple, ?outcome_of_triple.
      split; [discriminate |].
      split; [discriminate |].
      split.
      * intros ex H. injection H as <-.
        exists 0%nat, w. split; [lia |]. split; [reflexivity |].
        simpl firstn. simpl report. unfold ret.
        rewrite ?state_of_triple, ?trace_of_triple, ?outcome_of_triple.
        rewrite Ec.
        rewrite ?state_of_triple, ?trace_of_triple, ?outcome_of_triple.
        repeat (split; [first [reflexivity | exact Hc] |]). reflexivity.
      * intros Hall.
        split; [apply Hw; intros s; apply Hall; left; reflexivity |].
        rewrite Hc. constructor.
Qed.

End ConditionalMore.

Lemma conditions_met_stale_iff_witness :
  (Py.outcome_of (Conditional.conditions_met (Examples.record_world true 3600)
                                             Examples.backup_reporter)
   = Py.Ok true <-> 1700000000 - (1700000000 - 3600) > 3600) /\
  (1700000000 = 1700000000 - 3600 + 3600 ->
   Py.outcome_of (Conditional.conditions_met (Examples.record_world true 3600)
                                             Examples.backup_reporter)
   = Py.Ok false).
Proof.
  exact (conditions_met_stale_iff
           (Examples.record_world true 3600) Examples.backup_reporter
           {| Conditional.query_id := "eth-usd"%string;
              Conditional.descriptor := "eth-usd-spot"%string |}
           "value"%string (1700000000 - 3600) Examples.status_ok
           eq_refl eq_refl eq_refl).
Defined.

Lemma conditions_met_monotone_witness :
  Py.outcome_of (Conditional.conditions_met
                   (Notions.later 500 (Examples.record_world true 3601))
                   Notions.impatient_reporter)
  = Py.Ok true.
Proof.
  apply (conditions_met_monotone
           (Examples.record_world true 3601)
           (Notions.later 500 (Examples.record_world true 3601))
           Examples.backup_reporter Notions.impatient_reporter
           {| Conditional.query_id := "eth-usd"%string;
              Conditional.descriptor := "eth-usd-spot"%string |}
           {| Conditional.query_id := "eth-usd"%string;
              Conditional.descriptor := "eth-usd-spot"%string |}
           true "value"%string (1700000000 - 3601)
           Examples.status_ok Examples.status_ok);
    try reflexivity; simpl; lia.
Defined.

(** ** [fetch_median_value] *)

Section MedianFetchFacts.
Import Py MedianFetch.

(** X5. Without the rewards check, [fetch_median_value] leaves
    [autopaytip] at 0 whatever it was and however the call ends; with a
    datafeed set and random feeds off it returns that datafeed and changes
    nothing else. *)
Theorem fetch_median_value_resets_tip (w : World) (self : Reporter) :
  check_rewards self = false ->
  autopaytip (state_of (fetch_median_value w self)) = 0 /\
  (forall df, datafeed self = Some df -> use_random_feeds self = false ->
     fetch_median_value w self = (with_autopaytip 0 self, [], Ok (Some df))).
Proof.
  intros Hc.
  unfold fetch_median_value, undefined_name, bind, get, modify, ret, raise, state_of.
  simpl. rewrite Hc. simpl. split.
  - destruct (use_random_feeds self); simpl; [reflexivity |].
    destruct (datafeed self); reflexivity.
  - intros df Hd Hr. rewrite Hr. simpl. rewrite Hd. simpl. rewrite Hd.
    reflexivity.
Qed.


End MedianFetchFacts.

Lemma fetch_median_value_resets_tip_witness :
  MedianFetch.autopaytip
    (Py.state_of (MedianFetch.fetch_median_value Notions.no_rewards_method
                                                 Notions.tipped_reporter)) = 0.
Proof.
  exact (proj1 (fetch_median_value_resets_tip
                  Notions.no_rewards_method Notions.tipped_reporter eq_refl)).
Defined.

(** ** More about the Flashbots reporter *)

Section FlashbotMore.
Import Py Flashbot Notions.

Ltac step := unfold bind, get, modify, lift, emit, ret, raise; simpl.

Lemma only_logs_app (t1 t2 : list event) :
  only_logs t1 -> only_logs t2 -> only_logs (t1 ++ t2).
Proof. intros H1 H2. apply Forall_app. split; assumption. Qed.

Lemma only_logs_filter (p : event -> bool) (tr : list event) :
  (forall lvl msg, p (Log lvl msg) = false) -> only_logs tr -> filter p tr = [].
Proof.
  intros Hp. induction 1 as [| ev tr Hev _ IH]; [reflexivity |].
  simpl. destruct ev; try discriminate. rewrite Hp. exact IH.
Qed.

Lemma resolve_costs_only_logs (w : World) (tips tb : Z) (r : FlashbotsReporter) :
  only_logs (trace_of (resolve_costs w tips tb r)).
Proof.
  unfold resolve_costs, log_rewards, suggestBaseFee_of, SafeGasPrice_of,
    optional_add_int, int_mul_optional, trace_of, only_logs.
  step.
  destruct (transaction_type r =? 2).
  - destruct (fee_info w) as [q |]; simpl; [| constructor].
    destruct (priority_fee r) as [p |] eqn:P; simpl;
      destruct (max_fee r) as [m |] eqn:Mx; simpl; rewrite ?P, ?Mx; simpl;
      destruct (int_truediv_float tips lit_1e18); simpl; try constructor;
      destruct (int_truediv_float tb lit_1e18); simpl; try constructor;
      rewrite ?P, ?Mx; repeat constructor.
  - destruct (negb (truthy (legacy_gas_price r))); simpl;
      destruct (int_truediv_float tips lit_1e18); simpl; try constructor;
      destruct (int_truediv_float tb lit_1e18); simpl; try constructor;
      destruct (ethgasstation w); try (repeat constructor; fail);
      destruct (legacy_gas_price r); repeat constructor.
Qed.

Lemma estimate_only_logs (w : World) (r : FlashbotsReporter) :
  only_logs (trace_of (estimate w r)).
Proof.
  unfold estimate.
  destruct (getCurrentReward w) as [[[tips tb] |] st].
  - destruct (ok st).
    + pose proof (resolve_costs_only_logs w tips tb r) as Hc.
      unfold int_truediv_float, float_truediv, float_mul_optional, trace_of in *.
      step.
      destruct (resolve_costs w tips tb r) as [[s1 t1] [c | ex]]; simpl in *;
        [| assumption].
      repeat match goal with
             | |- context [float_of_int ?n] => destruct (float_of_int n); simpl
             | |- context [trb_usd_latest w] => destruct (trb_usd_latest w); simpl
             | |- context [eth_usd_latest w] => destruct (eth_usd_latest w); simpl
             | |- context [is_zero ?x] => destruct (is_zero x); simpl
             end;
        try (apply only_logs_app; [assumption | repeat constructor]);
        try (rewrite app_nil_r; assumption).
    + unfold str_add_optional, trace_of. step.
      destruct (error st); repeat constructor.
  - unfold str_add_optional, trace_of. step.
    destruct (ok st); destruct (error st); repeat constructor.
Qed.

Lemma ensure_profitable_only_logs (w : World) (r : FlashbotsReporter) :
  only_logs (trace_of (ensure_profitable w r)).
Proof.
  pose proof (estimate_only_logs w r) as H.
  unfold ensure_profitable, trace_of in *. step.
  destruct (estimate w r) as [[s1 t1] [[st | est] | ex]]; simpl in *;
    try assumption.
  - apply only_logs_app; [assumption | constructor].
  - destruct (below_threshold _ _); simpl;
      (apply only_logs_app; [assumption | repeat constructor]).
Qed.

Lemma fee_fields_only_logs (r : FlashbotsReporter) :
  only_logs (trace_of (fee_fields r)).
Proof.
  unfold fee_fields, trace_of. step.
  destruct (transaction_type r =? 2); simpl.
  - destruct (toWei_gwei (max_fee r)); simpl; [| repeat constructor].
    destruct (toWei_gwei (priority_fee r)); repeat constructor.
  - destruct (toWei_gwei (legacy_gas_price r)); repeat constructor.
Qed.

Lemma ensure_profitable_keeps (w : World) (r : FlashbotsReporter) :
  same_configuration r (state_of (ensure_profitable w r)) /\
  last_submission_timestamp (state_of (ensure_profitable w r))
  = last_submission_timestamp r.
Proof.
  rewrite ensure_profitable_state, estimate_state. unfold same_configuration.
  destruct (getCurrentReward w) as [[[tips tb] |] st]; [| tauto].
  destruct (ok st); [| tauto].
  rewrite resolve_costs_state.
  destruct (transaction_type r =? 2).
  - destruct (fee_info w); [| tauto].
    destruct (priority_fee r) eqn:P, (max_fee r) eqn:Mx; simpl;
      rewrite ?P, ?Mx; simpl; tauto.
  - destruct (negb (truthy (legacy_gas_price r))); simpl; tauto.
Qed.

(** [report_once] either reaches the relay, every check before it passed,
    or stops before it with log lines only and without a receipt, for one
    of eight reasons. *)
Lemma report_once_submits_or_stops (w : World) (r : FlashbotsReporter) :
  let r0 := after_lock w r in
  (exists lock s1 t1 st v value t2 fs,
     snd (reporter_lock w r) = Ok lock /\ ok lock = true /\
     ensure_profitable w r0 = (s1, t1, Ok st) /\ ok st = true /\
     datafeed_latest w = Some v /\ value_type_encode w v = Ok value /\
     ok (snd (getTimestampCountById w)) = true /\
     fee_fields s1 = (s1, t2, Ok fs) /\
     let sub := submit_bundle w ResponseStatus_new (built w s1 value fs) s1 in
     report_once w r = (state_of sub, t1 ++ t2 ++ trace_of sub, outcome_of sub)) \/
  (only_logs (trace_of (report_once w r)) /\
   (state_of (report_once w r) = r0 \/
    state_of (report_once w r) = state_of (ensure_profitable w r0)) /\
   (forall rc st, outcome_of (report_once w r) <> Ok (Some rc, st)) /\
   ((exists ex, snd (reporter_lock w r) = Raise ex) \/
    (exists lock, snd (reporter_lock w r) = Ok lock /\ ok lock = false) \/
    (exists s1 t1 ex, ensure_profitable w r0 = (s1, t1, Raise ex)) \/
    (exists s1 t1 st, ensure_profitable w r0 = (s1, t1, Ok st) /\ ok st = false) \/
    datafeed_latest w = None \/
    (exists v ex, datafeed_latest w = Some v /\ value_type_encode w v = Raise ex) \/
    ok (snd (getTimestampCountById w)) = false \/
    (exists s1 t1 st t2 ex,
       ensure_profitable w r0 = (s1, t1, Ok st) /\ ok st = true /\
       fee_fields s1 = (s1, t2, Raise ex)))).
Proof.
  intros r0.
  pose proof (ensure_profitable_only_logs w r0) as Hn.
  unfold report_once. rewrite bind_check_reporter_lock. fold r0.
  destruct (snd (reporter_lock w r)) as [lock | ex] eqn:Lk.
  2:{ right. split; [constructor |]. split; [left; reflexivity |].
      split; [discriminate | left; eexists; reflexivity]. }
  destruct (ok lock) eqn:L; cbn [negb].
  2:{ right. split; [constructor |]. split; [left; reflexivity |].
      split; [discriminate |]. right; left. exists lock. split; [reflexivity | exact L]. }
  destruct (ensure_profitable w r0) as [[s1 t1] [st | ex]] eqn:E.
  2:{ rewrite (bind_raise _ _ _ _ _ _ E). right.
      split; [exact Hn |]. split; [right; reflexivity |].
      split; [discriminate |]. right; right; left.
      eexists; eexists; eexists; reflexivity. }
  rewrite (bind_ok _ _ _ _ _ _ E).
  unfold state_of, trace_of, outcome_of in *. cbn [fst snd] in *.
  destruct (ok st) eqn:S; cbn [negb].
  2:{ right. cbn. rewrite app_nil_r.
      split; [assumption |]. split; [right; reflexivity |].
      split; [discriminate |]. right; right; right; left.
      eexists; eexists; eexists; split; [reflexivity | exact S]. }
  destruct (datafeed_latest w) as [v |] eqn:V.
  2:{ right. cbn. split; [apply only_logs_app; [assumption | repeat constructor] |].
      split; [right; reflexivity |]. split; [discriminate |].
      right; right; right; right; left. reflexivity. }
  rewrite (bind_ok get _ s1 s1 [] s1 eq_refl).
  unfold state_of, trace_of, outcome_of. cbn [fst snd app].
  destruct (value_type_encode w v) as [value | ex] eqn:En.
  2:{ right. cbn. split; [apply only_logs_app; [assumption | repeat constructor] |].
      split; [right; reflexivity |]. split; [discriminate |].
      right; right; right; right; right; left.
      exists v, ex. split; [reflexivity | exact En]. }
  unfold built.
  destruct (getTimestampCountById w) as [count rs]. cbn [fst snd].
  destruct (ok rs) eqn:R; cbn [negb].
  2:{ right. unfold str_add_optional. step.
      destruct (error rs); simpl;
        (split; [try (apply only_logs_app; [assumption | repeat constructor]);
                 try (rewrite app_nil_r; assumption) |]);
        (split; [right; reflexivity |]); (split; [discriminate |]);
        right; right; right; right; right; right; left; reflexivity. }
  pose proof (fee_fields_state s1) as Hfs.
  pose proof (fee_fields_only_logs s1) as Hfl.
  unfold state_of, trace_of in *.
  destruct (fee_fields s1) as [[s2 t2] [fs | ex]] eqn:F; cbn [fst snd] in *; subst s2.
  2:{ right. rewrite (bind_raise _ _ _ _ _ _ F). cbn [fst snd].
      split; [apply only_logs_app; assumption |].
      split; [right; reflexivity |]. split; [discriminate |].
      right; right; right; right; right; right; right.
      exists s1, t1, st, t2, ex. split; [reflexivity |]. split; [exact S | exact F]. }
  left. rewrite (bind_ok _ _ _ _ _ _ F).
  unfold state_of, trace_of, outcome_of. cbn [fst snd].
  exists lock, s1, t1, st, v, value, t2, fs.
  repeat (split; [first [assumption | reflexivity] |]). reflexivity.
Qed.

Lemma estimate_early_return_not_ok (w : World) (r s : FlashbotsReporter) t st :
  estimate w r = (s, t, Ok (inl st)) -> ok st = false.
Proof.
  unfold estimate.
  destruct (getCurrentReward w) as [[[tips tb] |] rs].
  - destruct (ok rs).
    + unfold int_truediv_float, float_truediv, float_mul_optional. step.
      destruct (resolve_costs w tips tb r) as [[s1 t1] [c | ex]]; simpl;
        [| discriminate].
      repeat match goal with
             | |- context [float_of_int ?n] => destruct (float_of_int n); simpl
             | |- context [trb_usd_latest w] => destruct (trb_usd_latest w); simpl
             | |- context [eth_usd_latest w] => destruct (eth_usd_latest w); simpl
             | |- context [is_zero ?x] => destruct (is_zero x); simpl
             end; discriminate.
    + unfold str_add_optional. step.
      destruct (error rs); simpl; [| discriminate]. intros [= _ _ <-]. reflexivity.
  - unfold str_add_optional. step.
    destruct (ok rs); destruct (error rs); simpl; try discriminate;
      intros [= _ _ <-]; reflexivity.
Qed.

(** A status that is ok comes from an estimate. *)
Lemma ensure_profitable_ok_inv (w : World) (r s1 : FlashbotsReporter) t1 st :
  ensure_profitable w r = (s1, t1, Ok st) -> ok st = true ->
  exists t est,
    estimate w r = (s1, t, Ok (inr est)) /\
    below_threshold (expected_profit r) (percent_profit est) = false.
Proof.
  intros E Hok.
  destruct (estimate w r) as [[s t] [[early | est] | ex]] eqn:Es.
  - pose proof (estimate_early_return_not_ok _ _ _ _ _ Es) as Hf.
    unfold ensure_profitable in E. rewrite (bind_ok _ _ _ _ _ _ Es) in E.
    cbn in E. injection E as _ _ <-. congruence.
  - destruct (ensure_profitable_decides w r s t est Es) as [Hs Ho].
    rewrite E in Hs, Ho. unfold state_of, outcome_of in *. simpl in *. subst s1.
    exists t, est. split; [reflexivity |].
    destruct (below_threshold _ _); [| reflexivity].
    injection Ho as ->. discriminate.
  - rewrite (ensure_profitable_raises _ _ _ _ _ Es) in E. discriminate.
Qed.

(** [Web3.toWei] returns exactly for the amounts whose value in wei lies
    between 0 and [MAX_WEI], and then it returns that value. *)
Lemma toWei_gwei_ok (x : option Z) (wei : Z) :
  toWei_gwei x = Ok wei <->
  exists n, x = Some n /\ wei = n * 10 ^ 9 /\ 0 <= n * 10 ^ 9 <= MAX_WEI.
Proof.
  unfold toWei_gwei. destruct x as [n |].
  - cbv zeta. set (v := n * 10 ^ 9).
    destruct (Z.ltb_spec v 0) as [A | A]; cbn [orb].
    + split; [discriminate | intros (n' & Hn & _ & H & _)].
      injection Hn as <-. fold v in H. lia.
    + rewrite Z.gtb_ltb. destruct (Z.ltb_spec MAX_WEI v) as [B | B].
      * split; [discriminate |]. intros (n' & Hn & _ & _ & H).
        injection Hn as <-. fold v in H. lia.
      * split.
        -- intros [= <-]. exists n. repeat split; assumption.
        -- intros (n' & Hn & -> & _). injection Hn as <-. reflexivity.
  - split; [discriminate | intros (n & H & _); discriminate].
Qed.

(** [fee_fields] returns exactly when the fees of the transaction type
    are amounts that [Web3.toWei] accepts. *)
Lemma fee_fields_returns_iff (s : FlashbotsReporter) :
  (exists t fs, fee_fields s = (s, t, Ok fs)) <-> fees_in_wei_range s.
Proof.
  unfold fee_fields, fees_in_wei_range, in_wei_range. step.
  destruct (transaction_type s =? 2); simpl.
  - destruct (toWei_gwei (max_fee s)) as [mf | ex] eqn:A; simpl.
    + destruct (toWei_gwei (priority_fee s)) as [pf | ex] eqn:B; simpl.
      * apply toWei_gwei_ok in A, B.
        destruct A as (n & Hn & _ & Hr). destruct B as (m & Hm & _ & Hr').
        split; [intros _ | intros _; eexists; eexists; reflexivity].
        split; [exists n | exists m]; auto.
      * split; [intros (t & fs & H); discriminate |].
        intros (_ & (m & Hm & Hr)).
        assert (H : toWei_gwei (priority_fee s) = Ok (m * 10 ^ 9))
          by (apply toWei_gwei_ok; exists m; auto).
        congruence.
    + split; [intros (t & fs & H); discriminate |].
      intros ((n & Hn & Hr) & _).
      assert (H : toWei_gwei (max_fee s) = Ok (n * 10 ^ 9))
        by (apply toWei_gwei_ok; exists n; auto).
      congruence.
  - destruct (toWei_gwei (legacy_gas_price s)) as [gp | ex] eqn:A; simpl.
    + apply toWei_gwei_ok in A. destruct A as (n & Hn & _ & Hr).
      split; [intros _; exists n; auto | intros _; eexists; eexists; reflexivity].
    + split; [intros (t & fs & H); discriminate |].
      intros (n & Hn & Hr).
      assert (H : toWei_gwei (legacy_gas_price s) = Ok (n * 10 ^ 9))
        by (apply toWei_gwei_ok; exists n; auto).
      congruence.
Qed.

(** After a successful [resolve_costs], the fee fields that [fee_fields]
    builds are the fees the cost was computed with, in wei. *)
Lemma fee_fields_after_costs (w : World) (tips tb : Z) (r s1 : FlashbotsReporter)
  t c t2 fs :
  resolve_costs w tips tb r = (s1, t, Ok c) ->
  fee_fields s1 = (s1, t2, Ok fs) ->
  c * 10 ^ 9 = gas_limit r * gas_price_wei fs /\
  (transaction_type r = 2 <-> exists m p, fs = Eip1559Fees m p).
Proof.
  intros H.
  destruct (resolve_costs_ok _ _ _ _ _ _ _ H) as (fee & Hf & Hc).
  pose proof (resolve_costs_settings w tips tb r) as (_ & Ht & _).
  rewrite H in Ht. unfold state_of in Ht. simpl in Ht.
  unfold fee_fields. step. rewrite Ht.
  destruct (transaction_type r =? 2) eqn:T.
  - apply Z.eqb_eq in T.
    destruct (toWei_gwei (max_fee s1)) as [mf | ex] eqn:A; simpl; [| discriminate].
    destruct (toWei_gwei (priority_fee s1)) as [pf | ex] eqn:B; simpl;
      [| discriminate].
    intros [= _ <-]. apply toWei_gwei_ok in A. destruct A as (n & Hn & -> & _).
    assert (n = fee) by congruence. subst n. simpl.
    split; [rewrite Hc; ring |].
    split; [intros _; eexists; eexists; reflexivity | intros _; exact T].
  - destruct (toWei_gwei (legacy_gas_price s1)) as [gp | ex] eqn:A; simpl;
      [| discriminate].
    intros [= _ <-]. apply toWei_gwei_ok in A. destruct A as (n & Hn & -> & _).
    assert (n = fee) by congruence. subst n. simpl.
    split; [rewrite Hc; ring |].
    split; [intros E; apply Z.eqb_neq in T; contradiction
           | intros (m & p & E); discriminate].
Qed.

(** A status that is ok comes with an estimate whose cost is priced with
    the fee fields of the transaction. *)
Lemma fee_fields_after_ok (w : World) (r s1 : FlashbotsReporter) t1 st :
  ensure_profitable w r = (s1, t1, Ok st) -> ok st = true ->
  exists t est,
    estimate w r = (s1, t, Ok (inr est)) /\
    forall t2 fs,
      fee_fields s1 = (s1, t2, Ok fs) ->
      costs est * 10 ^ 9 = gas_limit r * gas_price_wei fs /\
      (transaction_type r = 2 <-> exists m p, fs = Eip1559Fees m p).
Proof.
  intros E Hok.
  destruct (ensure_profitable_ok_inv w r s1 t1 st E Hok) as (t & est & Hes & _).
  destruct (estimate_ok w r s1 t est Hes)
    as (tips & tb & rs & tc & _ & _ & _ & _ & _ & _ & Hc & _).
  exists t, est. split; [exact Hes |]. intros t2 fs F.
  exact (fee_fields_after_costs w tips tb r s1 tc (costs est) t2 fs Hc F).
Qed.

(** The relay calls of a [report_once] that passed every check. *)
Lemma relay_calls_after_checks (w : World) (r s1 : FlashbotsReporter)
  t1 st value t2 fs :
  ensure_profitable w (after_lock w r) = (s1, t1, Ok st) ->
  fee_fields s1 = (s1, t2, Ok fs) ->
  (let sub := submit_bundle w ResponseStatus_new (built w s1 value fs) s1 in
   report_once w r = (state_of sub, t1 ++ t2 ++ trace_of sub, outcome_of sub)) ->
  relay_calls (trace_of (report_once w r))
  = five_blocks (built w s1 value fs) (block_number w).
Proof.
  intros E F H. cbv zeta in H.
  pose proof (ensure_profitable_only_logs w (after_lock w r)) as H1.
  pose proof (fee_fields_only_logs s1) as H2.
  rewrite E in H1. rewrite F in H2. rewrite trace_of_triple in H1. rewrite trace_of_triple in H2.
  rewrite H, trace_of_triple.
  rewrite !relay_calls_app, submit_bundle_relay.
  unfold relay_calls at 1 2.
  rewrite (only_logs_filter is_relay t1), (only_logs_filter is_relay t2); auto.
Qed.

(** X7. [report_once] calls the relay exactly when the lock check answers
    a status that is ok, [ensure_profitable] returns a status that is ok,
    the fees it leaves on the reporter are amounts that [Web3.toWei]
    accepts (0 to 2^256 - 1 wei), the datafeed has a value, the value
    encodes and the timestamp count was read; in every other case its trace
    holds log lines only. *)
Theorem report_once_relay_iff_gates (w : World) (r : FlashbotsReporter) :
  (relay_calls (trace_of (report_once w r)) <> [] <->
   (exists lock, snd (reporter_lock w r) = Ok lock /\ ok lock = true) /\
   (exists s1 t1 st,
      ensure_profitable w (after_lock w r) = (s1, t1, Ok st) /\ ok st = true /\
      fees_in_wei_range s1) /\
   (exists v value, datafeed_latest w = Some v /\ value_type_encode w v = Ok value) /\
   ok (snd (getTimestampCountById w)) = true) /\
  (relay_calls (trace_of (report_once w r)) = [] ->
   only_logs (trace_of (report_once w r))).
Proof.
  destruct (report_once_submits_or_stops w r)
    as [(lock & s1 & t1 & st & v & value & t2 & fs
         & Lk & L & E & S & V & En & R & F & H)
       | (Hl & _ & _ & Hwhy)].
  - pose proof (relay_calls_after_checks w r s1 t1 st value t2 fs E F H) as Hrel.
    split.
    + split; [intros _ | intros _; rewrite Hrel; discriminate].
      split; [exists lock; auto |].
      split; [exists s1, t1, st; split; [exact E |]; split; [exact S |];
              apply fee_fields_returns_iff; exists t2, fs; exact F |].
      split; [exists v, value; auto | exact R].
    + rewrite Hrel. discriminate.
  - split; [| intros _; exact Hl].
    split.
    + intros Hne. exfalso. apply Hne.
      apply only_logs_filter; [reflexivity | exact Hl].
    + intros ((lock & Lk & L) & (s1 & t1 & st & E & S & W) & (v & value & V & En) & R).
      exfalso.
      destruct Hwhy as [(ex & H) | [(lock' & H & H') | [(s & t & ex & H)
        | [(s & t & st' & H & H') | [H | [(v' & ex & H & H')
        | [H | (s & t & st' & t2 & ex & H & H' & F)]]]]]]];
        try congruence.
      rewrite E in H. injection H as <- <- <-.
      apply fee_fields_returns_iff in W. destruct W as (t3 & fs & F').
      congruence.
Qed.

(** [estimate] neither reads nor assigns [last_submission_timestamp]. *)
Lemma resolve_costs_timestamp (w : World) (tips tb ts : Z) (r : FlashbotsReporter) :
  resolve_costs w tips tb (with_last_submission_timestamp ts r)
  = (with_last_submission_timestamp ts (state_of (resolve_costs w tips tb r)),
     trace_of (resolve_costs w tips tb r),
     outcome_of (resolve_costs w tips tb r)).
Proof.
  unfold resolve_costs, log_rewards, suggestBaseFee_of, SafeGasPrice_of,
    optional_add_int, int_mul_optional, state_of, trace_of, outcome_of.
  step.
  destruct (transaction_type r =? 2).
  - destruct (fee_info w) as [q |]; simpl; [| reflexivity].
    destruct (priority_fee r) as [p |] eqn:P; simpl;
      destruct (max_fee r) as [m |] eqn:Mx; simpl; rewrite ?P, ?Mx; simpl;
      destruct (int_truediv_float tips lit_1e18); simpl; try reflexivity;
      destruct (int_truediv_float tb lit_1e18); simpl; try reflexivity;
      rewrite ?P, ?Mx; reflexivity.
  - destruct (negb (truthy (legacy_gas_price r))); simpl;
      destruct (int_truediv_float tips lit_1e18); simpl; try reflexivity;
      destruct (int_truediv_float tb lit_1e18); simpl; try reflexivity;
      destruct (ethgasstation w); try reflexivity;
      destruct (legacy_gas_price r); reflexivity.
Qed.

Lemma estimate_timestamp (w : World) (ts : Z) (r : FlashbotsReporter) :
  outcome_of (estimate w (with_last_submission_timestamp ts r))
  = outcome_of (estimate w r).
Proof.
  unfold estimate.
  destruct (getCurrentReward w) as [[[tips tb] |] st].
  - destruct (ok st).
    + pose proof (resolve_costs_timestamp w tips tb ts r) as Hc.
      unfold int_truediv_float, float_truediv, float_mul_optional,
        state_of, trace_of, outcome_of in *.
      step.
      destruct (resolve_costs w tips tb (with_last_submission_timestamp ts r))
        as [[s0 t0] o0].
      destruct (resolve_costs w tips tb r) as [[s1 t1] [c | ex]];
        cbn [fst snd] in Hc; injection Hc as -> -> ->; simpl; [| reflexivity].
      repeat match goal with
             | |- context [float_of_int ?n] => destruct (float_of_int n); simpl
             | |- context [trb_usd_latest w] => destruct (trb_usd_latest w); simpl
             | |- context [eth_usd_latest w] => destruct (eth_usd_latest w); simpl
             | |- context [is_zero ?x] => destruct (is_zero x); simpl
             end; reflexivity.
    + unfold str_add_optional, outcome_of. step. destruct (error st); reflexivity.
  - unfold str_add_optional, outcome_of. step.
    destruct (ok st); destruct (error st); reflexivity.
Qed.

Lemma In_relay_calls (ev : event) (tr : list event) :
  In ev tr -> is_relay ev = true -> In ev (relay_calls tr).
Proof. intros H1 H2. apply filter_In. split; assumption. Qed.

(** X8. Every bundle that [report_once] sends holds the one transaction
    built from the reporter and this cycle's reads: the query id and data
    and the chain id of the reporter, its gas limit, the account's
    transaction count as nonce, the timestamp count as oracle nonce, the
    encoded datafeed value, and the gas price, in wei, that the
    profitability estimate was computed with: gas times gas price is the
    estimated cost times 1e9. The fee fields are the EIP-1559 ones exactly
    for transaction type 2. *)
Theorem sent_transaction_matches_estimate (w : World) (r : FlashbotsReporter)
  (tx : transaction) (b : Z) :
  In (SendBundle [tx] b) (trace_of (report_once w r)) ->
  tx_queryId tx = query_id r /\ tx_queryData tx = query_data r /\
  tx_chainId tx = chain_id r /\ tx_gas tx = gas_limit r /\
  tx_nonce tx = get_transaction_count w /\
  tx_oracle_nonce tx = fst (getTimestampCountById w) /\
  (exists v, datafeed_latest w = Some v /\
             value_type_encode w v = Ok (tx_value tx)) /\
  (exists s t est,
     estimate w r = (s, t, Ok (inr est)) /\
     tx_gas tx * gas_price_wei (tx_fees tx) = costs est * 10 ^ 9) /\
  (transaction_type r = 2 <-> exists m p, tx_fees tx = Eip1559Fees m p).
Proof.
  intros Hin.
  destruct (report_once_submits_or_stops w r)
    as [(lock & s1 & t1 & st & v & value & t2 & fs
         & Lk & L & E & S & V & En & R & F & H)
       | (Hl & _)].
  2:{ exfalso. unfold only_logs in Hl. rewrite Forall_forall in Hl.
      specialize (Hl _ Hin). discriminate. }
  apply In_relay_calls in Hin; [| reflexivity].
  rewrite (relay_calls_after_checks w r s1 t1 st value t2 fs E F H) in Hin.
  assert (Etx : tx = built w s1 value fs).
  { simpl in Hin.
    repeat (destruct Hin as [Hin | Hin]; [injection Hin as <- _; reflexivity |]);
      repeat (destruct Hin as [Hin | Hin]; [discriminate |]); contradiction. }
  subst tx. clear Hin.
  destruct (ensure_profitable_keeps w (after_lock w r))
    as ((Hq & Hqd & Hc & _ & _ & Hg & _) & _).
  rewrite E, state_of_triple in Hq, Hqd, Hc, Hg.
  simpl in Hq, Hqd, Hc, Hg.
  destruct (fee_fields_after_ok w (after_lock w r) s1 t1 st E S)
    as (t & est & Hes & Hfee).
  destruct (Hfee t2 fs F) as (Hw & Ht). simpl in Hw, Ht.
  pose proof (estimate_timestamp w (fst (reporter_lock w r)) r) as Hout.
  fold (after_lock w r) in Hout. rewrite Hes, outcome_of_triple in Hout.
  simpl. repeat (split; [first [assumption | reflexivity] |]).
  split; [exists v; auto |].
  split; [| exact Ht].
  exists (state_of (estimate w r)), (trace_of (estimate w r)), est.
  split; [| rewrite Hg; symmetry; exact Hw].
  destruct (estimate w r) as [[s0 t0] o0]. rewrite outcome_of_triple in Hout.
  subst o0. reflexivity.
Qed.

(** X9. [report_once] returns a receipt only together with a fresh
    status, ok and without error, and then the receipt is the one looked up
    for block b+5 and [last_submission_timestamp] is 0; whenever it returns
    no receipt, or raises, [last_submission_timestamp] is what the lock
    check stored: no line of [report_once] or [ensure_profitable] assigns
    it. *)
Theorem receipt_resets_timestamp (w : World) (r : FlashbotsReporter) :
  (forall rc st,
     outcome_of (report_once w r) = Ok (Some rc, st) ->
     st = ResponseStatus_new /\
     receipts w (block_number w + 5) = Ok rc /\
     last_submission_timestamp (state_of (report_once w r)) = 0) /\
  ((forall rc st, outcome_of (report_once w r) <> Ok (Some rc, st)) ->
   last_submission_timestamp (state_of (report_once w r))
   = fst (reporter_lock w r)).
Proof.
  destruct (ensure_profitable_keeps w (after_lock w r)) as (_ & Hts).
  simpl in Hts.
  destruct (report_once_submits_or_stops w r)
    as [(lock & s1 & t1 & st & v & value & t2 & fs
         & Lk & L & E & S & V & En & R & F & H)
       | (_ & Hs & Hno & _)].
  - rewrite E, state_of_triple in Hts.
    cbv zeta in H. rewrite H, state_of_triple, outcome_of_triple.
    rewrite submit_bundle_outcome, submit_bundle_state.
    destruct (receipts w (block_number w + 5)) as [rc | ex].
    + split.
      * intros rc' st' Heq. inversion Heq; subst. repeat split; reflexivity.
      * intros Hn. exfalso. exact (Hn rc ResponseStatus_new eq_refl).
    + split.
      * intros rc st'. destruct ex; discriminate.
      * intros _. exact Hts.
  - split.
    + intros rc st H. exfalso. exact (Hno rc st H).
    + intros _. destruct Hs as [-> | ->]; [reflexivity | exact Hts].
Qed.





(** The fees on the reporter after [report_once] are those that
    [ensure_profitable] left, or the ones it had. *)
Lemma report_once_fees (w : World) (r : FlashbotsReporter) :
  exists s, (s = after_lock w r \/ s = state_of (ensure_profitable w (after_lock w r))) /\
            max_fee (state_of (report_once w r)) = max_fee s /\
            priority_fee (state_of (report_once w r)) = priority_fee s /\
            legacy_gas_price (state_of (report_once w r)) = legacy_gas_price s.
Proof.
  destruct (report_once_submits_or_stops w r)
    as [(lock & s1 & t1 & st & v & value & t2 & fs
         & Lk & L & E & S & V & En & R & F & H)
       | (_ & [Hs | Hs] & _)].
  - exists s1. split; [right; rewrite E; reflexivity |].
    cbv zeta in H. rewrite H, state_of_triple, submit_bundle_state.
    destruct (receipts w (block_number w + 5)); simpl; auto.
  - exists (after_lock w r). rewrite Hs. auto.
  - exists (state_of (ensure_profitable w (after_lock w r))). rewrite Hs. auto.
Qed.

Lemma ensure_profitable_fees (w : World) (r : FlashbotsReporter) :
  let s := state_of (ensure_profitable w r) in
  (transaction_type r = 2 -> legacy_gas_price s = legacy_gas_price r) /\
  (transaction_type r <> 2 ->
   max_fee s = max_fee r /\ priority_fee s = priority_fee r /\
   (legacy_gas_price s = legacy_gas_price r \/
    truthy (legacy_gas_price r) = false /\ legacy_gas_price s = ethgasstation w)).
Proof.
  cbv zeta. rewrite ensure_profitable_state, estimate_state.
  destruct (getCurrentReward w) as [[[tips tb] |] st]; [| tauto].
  destruct (ok st); [| tauto].
  rewrite resolve_costs_state.
  destruct (transaction_type r =? 2) eqn:T.
  - apply Z.eqb_eq in T. split; [intros _ | intros N; contradiction].
    destruct (fee_info w); [| reflexivity].
    destruct (priority_fee r) eqn:P, (max_fee r) eqn:Mx; simpl;
      rewrite ?P, ?Mx; reflexivity.
  - apply Z.eqb_neq in T. split; [intros E; contradiction | intros _].
    destruct (truthy (legacy_gas_price r)) eqn:G; simpl; auto.
Qed.


(** X12. The two fee models do not touch each other's fields: a type-2
    reporter keeps its legacy gas price through [report_once], and a legacy
    reporter keeps its max fee and priority fee. *)
Theorem fee_models_are_separate (w : World) (r : FlashbotsReporter) :
  (transaction_type r = 2 ->
   legacy_gas_price (state_of (report_once w r)) = legacy_gas_price r) /\
  (transaction_type r <> 2 ->
   max_fee (state_of (report_once w r)) = max_fee r /\
   priority_fee (state_of (report_once w r)) = priority_fee r).
Proof.
  destruct (report_once_fees w r) as (s & Hs & -> & -> & ->).
  destruct (ensure_profitable_fees w (after_lock w r)) as (H2 & H0).
  split.
  - intros T. destruct Hs as [-> | ->]; [reflexivity | exact (H2 T)].
  - intros T. destruct Hs as [-> | ->]; [split; reflexivity |].
    destruct (H0 T) as (Hm & Hp & _). split; assumption.
Qed.

(** X13. When the rewards cannot be read (the read is not ok, or it
    yields [None]), [ensure_profitable] leaves the reporter untouched and
    returns a status that is not ok, with the read's error message appended
    to its own and the read's exception; when the read carries no error
    message, building the message raises TypeError instead. *)
Theorem rewards_read_failure (w : World) (r : FlashbotsReporter) rewards rs :
  getCurrentReward w = (rewards, rs) ->
  ok rs = false \/ rewards = None ->
  (forall msg, error rs = Some msg ->
     let m := String.append "Unable to retrieve queryID's current rewards:" msg in
     ensure_profitable w r
     = (r, [Log ERROR m], Ok {| ok := false; error := Some m; e := e rs |})) /\
  (error rs = None -> ensure_profitable w r = (r, [], Raise TypeError)).
Proof.
  intros Hr Hfail.
  assert (E : estimate w r
              = match error rs with
                | Some msg =>
                    let m := String.append
                               "Unable to retrieve queryID's current rewards:" msg in
                    (r, [Log ERROR m],
                     Ok (inl {| ok := false; error := Some m; e := e rs |}))
                | None => (r, [], Raise TypeError)
                end).
  { unfold estimate, str_add_optional. rewrite Hr.
    destruct Hfail as [Hf | ->].
    - rewrite Hf. destruct rewards as [[tips tb] |]; step;
        destruct (error rs); reflexivity.
    - step. destruct (ok rs); destruct (error rs); reflexivity. }
  split.
  - intros msg Hm. rewrite Hm in E. cbv zeta in *.
    unfold ensure_profitable. rewrite (bind_ok _ _ _ _ _ _ E). reflexivity.
  - intros Hn. rewrite Hn in E. apply ensure_profitable_raises. exact E.
Qed.

(** X14. With the lock free and a profitable estimate, the three reads
    that remain can each stop the submission, and none of them reaches the
    relay or returns a receipt: a datafeed without a value, and a value
    whose encoding raises, make [report_once] return a status that is not
    ok (the encoder's exception does not leave the method); a failed read
    of the timestamp count gives a status that carries the error message
    while its [ok] is still true, since lines 239-244 assign [error] and [e]
    only. *)
Theorem report_once_stops_after_estimate (w : World) (r s1 : FlashbotsReporter)
  lock t1 st :
  snd (reporter_lock w r) = Ok lock -> ok lock = true ->
  ensure_profitable w (after_lock w r) = (s1, t1, Ok st) -> ok st = true ->
  (datafeed_latest w = None ->
   exists failed, outcome_of (report_once w r) = Ok (None, failed) /\
                  ok failed = false /\
                  relay_calls (trace_of (report_once w r)) = []) /\
  (forall v ex,
     datafeed_latest w = Some v -> value_type_encode w v = Raise ex ->
     exists failed, outcome_of (report_once w r) = Ok (None, failed) /\
                    ok failed = false /\
                    relay_calls (trace_of (report_once w r)) = []) /\
  (forall v value count rs msg,
     datafeed_latest w = Some v -> value_type_encode w v = Ok value ->
     getTimestampCountById w = (count, rs) -> ok rs = false ->
     error rs = Some msg ->
     outcome_of (report_once w r)
     = Ok (None,
           {| ok := true;
              error := Some (String.append "Unable to retrieve timestampCount: " msg);
              e := e rs |}) /\
     relay_calls (trace_of (report_once w r)) = []).
Proof.
  intros Lk L E S.
  pose proof (ensure_profitable_only_logs w (after_lock w r)) as Hl.
  rewrite E, trace_of_triple in Hl.
  assert (Hr : relay_calls t1 = [])
    by (apply only_logs_filter; [reflexivity | exact Hl]).
  unfold report_once. rewrite bind_check_reporter_lock, Lk, L. cbn [negb].
  rewrite (bind_ok _ _ _ _ _ _ E). rewrite S. cbn [negb].
  split; [| split].
  - intros V. rewrite V. eexists. split; [reflexivity |].
    split; [reflexivity |].
    rewrite trace_of_triple. cbn. rewrite relay_calls_app, Hr. reflexivity.
  - intros v ex V En. rewrite V.
    rewrite (bind_ok get _ s1 s1 [] s1 eq_refl). rewrite En.
    eexists. split; [reflexivity |]. split; [reflexivity |].
    rewrite trace_of_triple. cbn. rewrite relay_calls_app, Hr. reflexivity.
  - intros v value count rs msg V En Ht R Hm. rewrite V.
    rewrite (bind_ok get _ s1 s1 [] s1 eq_refl). rewrite En, Ht.
    rewrite R. cbn [negb]. rewrite Hm.
    split; [reflexivity |].
    rewrite trace_of_triple. cbn. rewrite relay_calls_app, Hr. reflexivity.
Qed.

(** X15. Resolving the fees is idempotent: a second estimate against the
    same answers of the collaborators leaves the reporter exactly as the
    first one left it. *)
Theorem ensure_profitable_idempotent (w : World) (r : FlashbotsReporter) :
  state_of (ensure_profitable w (state_of (ensure_profitable w r)))
  = state_of (ensure_profitable w r).
Proof.
  rewrite !ensure_profitable_state, !estimate_state.
  destruct (getCurrentReward w) as [[[tips tb] |] st]; [| reflexivity].
  destruct (ok st); [| reflexivity].
  rewrite !resolve_costs_state.
  destruct (transaction_type r =? 2) eqn:T.
  - destruct (fee_info w) as [q |]; [| rewrite T; reflexivity].
    destruct (priority_fee r) eqn:P, (max_fee r) eqn:Mx; simpl;
      rewrite ?P, ?Mx; simpl; rewrite ?T, ?P, ?Mx; simpl;
      rewrite ?P, ?Mx; reflexivity.
  - destruct (truthy (legacy_gas_price r)) eqn:G; simpl; rewrite T.
    + rewrite G. reflexivity.
    + simpl. destruct (truthy (ethgasstation w)); reflexivity.
Qed.

(** A legacy gas price below zero passes the estimate of a reporter that
    always reports and stops at [Web3.toWei]: the call raises ValueError
    and no bundle is sent. *)
Lemma negative_gas_price_stops_before_relay :
  let w := Examples.market (Some (float_lit 2000)) (Some (float_lit 1)) in
  let r := with_legacy_gas_price (Some (-50)) (Examples.legacy_reporter YOLO) in
  outcome_of (report_once w r) = Raise ValueError /\
  relay_calls (trace_of (report_once w r)) = [].
Proof. split; vm_compute; reflexivity. Qed.

End FlashbotMore.

Lemma sent_transaction_matches_estimate_witness :
  let w := Examples.market (Some (Py.float_lit 2000)) (Some (Py.float_lit 1)) in
  let r := Examples.legacy_reporter Flashbot.YOLO in
  let tx := Notions.built w r "encoded"%string (Py.LegacyFees 50000000000) in
  exists s t est,
    Flashbot.estimate w r = (s, t, Py.Ok (inr est)) /\
    Py.tx_gas tx * Notions.gas_price_wei (Py.tx_fees tx)
    = Flashbot.costs est * 10 ^ 9.
Proof.
  intros w r tx.
  assert (H : In (Py.SendBundle [tx] 101) (Py.trace_of (Flashbot.report_once w r))).
  { vm_compute. right. right. right. left. reflexivity. }
  exact (proj1 (proj2 (proj2 (proj2 (proj2 (proj2 (proj2 (proj2
           (sent_transaction_matches_estimate w r tx 101 H))))))))).
Defined.


Lemma rewards_read_failure_witness :
  Flashbot.ensure_profitable (Notions.market_without true false)
                             (Examples.legacy_reporter Flashbot.YOLO)
  = (Examples.legacy_reporter Flashbot.YOLO,
     [Py.Log Py.ERROR "Unable to retrieve queryID's current rewards:timeout"],
     Py.Ok {| Py.ok := false;
              Py.error := Some "Unable to retrieve queryID's current rewards:timeout"%string;
              Py.e := Some (Py.Exception "timeout") |}).
Proof.
  exact (proj1 (rewards_read_failure
                  (Notions.market_without true false)
                  (Examples.legacy_reporter Flashbot.YOLO)
                  None (Examples.status_failed "timeout")
                  eq_refl (or_introl eq_refl))
               "timeout"%string eq_refl).
Defined.

Lemma report_once_stops_after_estimate_witness :
  Py.outcome_of (Flashbot.report_once (Notions.market_without false true)
                                      (Examples.legacy_reporter Flashbot.YOLO))
  = Py.Ok (None,
           {| Py.ok := true;
              Py.error := Some "Unable to retrieve timestampCount: timeout"%string;
              Py.e := Some (Py.Exception "timeout") |}).
Proof.
  assert (E : Flashbot.ensure_profitable
                (Notions.market_without false true)
                (Notions.after_lock (Notions.market_without false true)
                                    (Examples.legacy_reporter Flashbot.YOLO))
              = (Examples.legacy_reporter Flashbot.YOLO,
                 [Py.Log Py.INFO "tips, time-based reward, gas limit, fees";
                  Py.Log Py.INFO "Estimated profit";
                  Py.Log Py.INFO "Estimated percent profit"],
                 Py.Ok Py.ResponseStatus_new))
    by (vm_compute; reflexivity).
  exact (proj1 (proj2 (proj2 (report_once_stops_after_estimate
                  (Notions.market_without false true)
                  (Examples.legacy_reporter Flashbot.YOLO) _
                  Py.ResponseStatus_new _ _
                  eq_refl eq_refl E eq_refl))
                2000 "encoded"%string None (Examples.status_failed "timeout")
                "timeout"%string eq_refl eq_refl eq_refl eq_refl eq_refl)).
Defined.

(** ** More about [filter_batch_result] *)

Section FilterBatchResultMore.
Import Py TipListener Notions.

Variables A Q V : Type.
Variable A_eq_dec : forall x y : A, {x = y} + {x <> y}.
Variable Q_eq_dec : forall x y : Q, {x = y} + {x <> y}.

Local Abbreviation keys d := (map fst d).
Local Abbreviation append := (append_at Q_eq_dec).
Local Abbreviation find := (lookup Q_eq_dec).
Local Abbreviation grouped := (TipListener.group_entries Q_eq_dec).
Local Abbreviation run := (filter_batch_result A_eq_dec Q_eq_dec).

Lemma lookup_on_lists (X Y : Type) (f : X -> Y) (d : defaultdict Q X) (q : Q) :
  find (map (on_lists f) d) q = map f (find d q).
Proof.
  induction d as [| [q0 l] d IH]; simpl; [reflexivity |].
  destruct (Q_eq_dec q q0); [reflexivity | exact IH].
Qed.

(** X16. Reading the result at any [q], without inserting, gives the values
    of the entries whose key has second component [q], in the order of the
    input: nothing for a [q] that no key mentions. *)
Theorem filter_batch_result_lookup (data : dict A Q V) :
  NoDup (keys data) ->
  exists results,
    run data = Ok results /\
    (forall q, find results q = values_for Q_eq_dec q data) /\
    (forall q, ~ In q (map second data) -> find results q = []).
Proof.
  intros Hnd. eexists. split; [apply filter_batch_result_entries; exact Hnd |].
  assert (H : forall q, find (map (on_lists snd) (grouped data [])) q
                        = values_for Q_eq_dec q data).
  { intros q. rewrite lookup_on_lists, lookup_group_entries. reflexivity. }
  split; [exact H |].
  intros q Hq. rewrite H. unfold values_for.
  replace (filter (has_second Q_eq_dec q) data) with (@nil (Key A Q * V));
    [reflexivity |].
  symmetry. clear H Hnd. induction data as [| kv d IH]; [reflexivity |].
  simpl. unfold has_second at 1.
  destruct (Q_eq_dec (snd (fst kv)) q) as [E | N].
  - exfalso. apply Hq. left. exact E.
  - apply IH. intros I. apply Hq. right. exact I.
Qed.

Lemma keys_group_entries (data : dict A Q V) m :
  keys (grouped data m)
  = fold_left (fun seen q => if in_dec Q_eq_dec q seen then seen else seen ++ [q])
              (map second data) (keys m).
Proof.
  revert m. induction data as [| kv d IH]; intros m; simpl; [reflexivity |].
  unfold TipListener.group_entries in *. simpl. rewrite IH, keys_append_at.
  reflexivity.
Qed.

(** X17. The keys of the result are the second components of the input
    keys in the order in which the input first mentions them. *)
Theorem filter_batch_result_key_order (data : dict A Q V) :
  NoDup (keys data) ->
  exists results,
    run data = Ok results /\
    keys results = first_seen Q_eq_dec (map second data).
Proof.
  intros Hnd. eexists. split; [apply filter_batch_result_entries; exact Hnd |].
  rewrite keys_on_lists, keys_group_entries. reflexivity.
Qed.

(** X18. No list of the result is empty. *)
Theorem filter_batch_result_no_empty_list (data : dict A Q V) :
  NoDup (keys data) ->
  exists results,
    run data = Ok results /\
    forall q l, In (q, l) results -> l <> [].
Proof.
  intros Hnd. eexists. split; [apply filter_batch_result_entries; exact Hnd |].
  intros q l Hin. apply in_map_iff in Hin. destruct Hin as [[q' es] [E Hin]].
  unfold on_lists in E. simpl in E. inversion E; subst.
  pose proof (nonempty_group_entries _ _ _ Q_eq_dec data [] (Forall_nil _)) as Hne.
  rewrite Forall_forall in Hne. specialize (Hne _ Hin). simpl in Hne.
  destruct es; [congruence | discriminate].
Qed.

Lemma filter_has_second_all (q : Q) (data : dict A Q V) :
  (forall kv, In kv data -> second kv = q) ->
  filter (has_second Q_eq_dec q) data = data.
Proof.
  induction data as [| kv d IH]; intros H; simpl; [reflexivity |].
  unfold has_second at 1.
  destruct (Q_eq_dec (snd (fst kv)) q) as [E | N].
  - rewrite IH; [reflexivity |]. intros x Hx. apply H. now right.
  - exfalso. apply N. apply (H kv). now left.
Qed.

Lemma group_entries_one_key (q : Q) (data : dict A Q V) (l : list (Key A Q * V)) :
  (forall kv, In kv data -> second kv = q) ->
  grouped data [(q, l)] = [(q, l ++ data)].
Proof.
  revert l. induction data as [| kv d IH]; intros l H; simpl.
  - now rewrite app_nil_r.
  - unfold TipListener.group_entries in *. simpl.
    assert (E : snd (fst kv) = q) by (apply (H kv); now left).
    match goal with
    | |- context [Q_eq_dec ?a ?b] => destruct (Q_eq_dec a b) as [_ | N]
    end; [| exfalso; apply N; exact E].
    rewrite IH by (intros x Hx; apply H; now right).
    rewrite <- app_assoc. reflexivity.
Qed.

(** X19. The case of the docstring: when every key of a non-empty input
    has the same second component [q], the result is the single entry
    [q -> all the values, in the order of the input]. *)
Theorem filter_batch_result_single_query (q : Q) (data : dict A Q V) :
  NoDup (keys data) -> data <> [] ->
  (forall kv, In kv data -> second kv = q) ->
  run data = Ok [(q, map snd data)].
Proof.
  intros Hnd Hne Hq. rewrite filter_batch_result_entries by exact Hnd.
  destruct data as [| kv d]; [congruence |].
  assert (E : second kv = q) by (apply (Hq kv); now left).
  change (grouped (kv :: d) []) with (grouped d [(second kv, [kv])]).
  rewrite E.
  rewrite group_entries_one_key by (intros x Hx; apply Hq; now right).
  reflexivity.
Qed.

Lemma append_at_app_r (X : Type) (m d : defaultdict Q X) (q : Q) (x : X) :
  ~ In q (keys m) -> append (m ++ d) q x = m ++ append d q x.
Proof.
  induction m as [| [q0 l] m IH]; simpl; intros H; [reflexivity |].
  destruct (Q_eq_dec q q0) as [E | N].
  - exfalso. apply H. left. congruence.
  - rewrite IH by tauto. reflexivity.
Qed.

Lemma group_entries_app_r (data : dict A Q V) (m d : defaultdict Q (Key A Q * V)) :
  (forall kv, In kv data -> ~ In (second kv) (keys m)) ->
  grouped data (m ++ d) = m ++ grouped data d.
Proof.
  revert d. induction data as [| kv data IH]; intros d H; simpl; [reflexivity |].
  unfold TipListener.group_entries in *. simpl.
  rewrite append_at_app_r by (apply (H kv); now left).
  apply IH. intros x Hx. apply H. now right.
Qed.

Lemma group_entries_app (data1 data2 : dict A Q V) :
  (forall kv1 kv2, In kv1 data1 -> In kv2 data2 -> second kv1 <> second kv2) ->
  grouped (data1 ++ data2) [] = grouped data1 [] ++ grouped data2 [].
Proof.
  intros Hdis.
  transitivity (grouped data2 (grouped data1 [] ++ [])).
  - rewrite app_nil_r. unfold TipListener.group_entries. apply fold_left_app.
  - apply group_entries_app_r. intros kv2 Hin2 Hk.
    apply (In_keys_group_entries _ _ _ Q_eq_dec data1 [] (second kv2)) in Hk.
    destruct Hk as [[] | Hk].
    apply in_map_iff in Hk. destruct Hk as [kv1 [E Hin1]].
    exact (Hdis kv1 kv2 Hin1 Hin2 E).
Qed.

(** X20. Batches that share no query id are filtered independently: the
    result for the two inputs one after the other is the result for the
    first followed by the result for the second. *)
Theorem filter_batch_result_app (data1 data2 : dict A Q V) :
  NoDup (keys (data1 ++ data2)) ->
  (forall kv1 kv2, In kv1 data1 -> In kv2 data2 -> second kv1 <> second kv2) ->
  exists r1 r2,
    run data1 = Ok r1 /\ run data2 = Ok r2 /\
    run (data1 ++ data2) = Ok (r1 ++ r2).
Proof.
  intros Hnd Hdis.
  assert (H1 : NoDup (keys data1) /\ NoDup (keys data2)).
  { rewrite map_app in Hnd. split.
    - exact (NoDup_app_remove_r _ _ Hnd).
    - exact (NoDup_app_remove_l _ _ Hnd). }
  destruct H1 as [H1 H2].
  exists (map (on_lists snd) (grouped data1 [])),
         (map (on_lists snd) (grouped data2 [])).
  rewrite !filter_batch_result_entries by assumption.
  split; [reflexivity |]. split; [reflexivity |].
  rewrite (group_entries_app data1 data2 Hdis), map_app. reflexivity.
Qed.
End FilterBatchResultMore.

Ltac distinct_keys := simpl; repeat constructor; simpl; intuition congruence.

Lemma filter_batch_result_lookup_witness :
  exists results,
    TipListener.filter_batch_result Z.eq_dec Z.eq_dec Examples.batch = Py.Ok results /\
    (forall q, TipListener.lookup Z.eq_dec results q
               = TipListener.values_for Z.eq_dec q Examples.batch) /\
    (forall q, ~ In q (map Notions.second Examples.batch)
               -> TipListener.lookup Z.eq_dec results q = []).
Proof.
  apply (filter_batch_result_lookup Z Z Z Z.eq_dec Z.eq_dec Examples.batch).
  distinct_keys.
Defined.

Lemma filter_batch_result_key_order_witness :
  exists results,
    TipListener.filter_batch_result Z.eq_dec Z.eq_dec Examples.batch = Py.Ok results /\
    map fst results = Notions.first_seen Z.eq_dec (map Notions.second Examples.batch).
Proof.
  apply (filter_batch_result_key_order Z Z Z Z.eq_dec Z.eq_dec Examples.batch).
  distinct_keys.
Defined.

Lemma filter_batch_result_no_empty_list_witness :
  exists results,
    TipListener.filter_batch_result Z.eq_dec Z.eq_dec Examples.batch = Py.Ok results /\
    forall q l, In (q, l) results -> l <> [].
Proof.
  apply (filter_batch_result_no_empty_list Z Z Z Z.eq_dec Z.eq_dec Examples.batch).
  distinct_keys.
Defined.

Lemma filter_batch_result_single_query_witness :
  TipListener.filter_batch_result Z.eq_dec Z.eq_dec Notions.batch_a
  = Py.Ok [(10, [100; 300])].
Proof.
  apply (filter_batch_result_single_query Z Z Z Z.eq_dec Z.eq_dec 10 Notions.batch_a).
  - distinct_keys.
  - discriminate.
  - simpl. intros kv [<- | [<- | []]]; reflexivity.
Defined.

Lemma filter_batch_result_app_witness :
  exists r1 r2,
    TipListener.filter_batch_result Z.eq_dec Z.eq_dec Notions.batch_a = Py.Ok r1 /\
    TipListener.filter_batch_result Z.eq_dec Z.eq_dec Notions.batch_b = Py.Ok r2 /\
    TipListener.filter_batch_result Z.eq_dec Z.eq_dec (Notions.batch_a ++ Notions.batch_b)
    = Py.Ok (r1 ++ r2).
Proof.
  apply (filter_batch_result_app Z Z Z Z.eq_dec Z.eq_dec Notions.batch_a Notions.batch_b).
  - distinct_keys.
  - simpl. intros kv1 kv2 [<- | [<- | []]] [<- | [<- | []]]; discriminate.
Defined.
